(** * Coveo Nuxt demo: engine composable, controllers and search components

    A shallow embedding of the TypeScript/Vue sources of the demo
    (composables [useCoveoEngine], [useSearchControllers],
    [useCoveoAnalytics] and the search components) together with a model of
    the state container the components talk to.

    Module-level mutable variables and Vue refs are explicit state records,
    console output is a log that the functions extend, calls into the
    headless controllers are recorded as lists of intents. *)

From Stdlib Require Import ZArith Lia.
From stdpp Require Import gmap strings list.

Local Open Scope string_scope.
Local Open Scope list_scope.
Local Open Scope Z_scope.

(** ** JavaScript values used by the sources *)

Module JS.

(** A string-typed slot that may be [undefined]. *)
Definition truthy (s : option string) : bool :=
  match s with
  | Some EmptyString => false
  | Some _ => true
  | None => false
  end.

(** [a || b] on such slots with a string default. *)
Definition or_default (a : option string) (b : string) : string :=
  match a with
  | Some (String c s) => String c s
  | _ => b
  end.

Definition nl : string := String (Ascii.ascii_of_nat 10) EmptyString.

(** Entries written to the browser console; an error entry carries the
    message of the caught exception. *)
Inductive ConsoleEntry : Type :=
| console_warn (msg : string)
| console_error (msg : string) (error : string)
| console_log (msg : string) (fields : list (string * string)).

Definition isWarning (e : ConsoleEntry) : bool :=
  match e with
  | console_warn _ => true
  | _ => false
  end.

End JS.

(** ** composables/useCoveoEngine.ts *)

Module UseCoveoEngine.
Import JS.

Record CoveoEngineOptions : Type := {
  searchHub : option string;
  pipeline : option string
}.

(** [useRuntimeConfig().public] *)
Record RuntimeConfig : Type := {
  coveoOrganizationId : option string;
  coveoApiKey : option string
}.

Record AnalyticsConfiguration : Type := {
  enabled : bool;
  originContext : string;
  originLevel2 : string;
  originLevel3 : string
}.

Record SearchConfiguration : Type := {
  search_searchHub : string;
  search_pipeline : option string
}.

Record SearchEngineConfiguration : Type := {
  organizationId : string;
  accessToken : string;
  analytics : AnalyticsConfiguration;
  search : SearchConfiguration
}.

(** What the surrounding runtime fixes for a session:
    [import.meta.client], the runtime configuration and
    [window.location.href] ([None] when [window] is undefined). *)
Record Env : Type := {
  isClient : bool;
  config : RuntimeConfig;
  windowHref : option string
}.

Definition credentialsWarning : string :=
  "⚠️ Coveo credentials not configured!" +:+ nl +:+
  "Set COVEO_ORGANIZATION_ID and COVEO_API_KEY environment variables." +:+ nl +:+
  "See: https://docs.coveo.com/en/1718/manage-an-organization/manage-api-keys".

Definition initFailure : string := "Failed to initialize Coveo engine:".

Section Composable.
(** The engine type and its constructor come from [@coveo/headless];
    the constructor either returns an engine or throws. *)
Context {SearchEngine : Type}.
Variable buildSearchEngine : SearchEngineConfiguration -> SearchEngine + string.

(** The module-level [let engineInstance] and the console. *)
Record ModuleState : Type := {
  engineInstance : option SearchEngine;
  console : list ConsoleEntry
}.

Definition initialModule : ModuleState :=
  {| engineInstance := None; console := [] |}.

Definition say (e : ConsoleEntry) (st : ModuleState) : ModuleState :=
  {| engineInstance := engineInstance st; console := console st ++ [e] |}.

Definition engineConfig (env : Env) (options : CoveoEngineOptions)
    (organizationId apiKey : string) : SearchEngineConfiguration :=
  {| organizationId := organizationId;
     accessToken := apiKey;
     analytics :=
       {| enabled := true;
          originContext := "Search";
          originLevel2 := or_default (searchHub options) "NuxtDemo";
          originLevel3 := default "default" (windowHref env) |};
     search :=
       {| search_searchHub := or_default (searchHub options) "NuxtDemo";
          search_pipeline := pipeline options |} |}.

Definition initEngine (env : Env) (options : CoveoEngineOptions)
    (st : ModuleState) : option SearchEngine * ModuleState :=
  if negb (isClient env) then (None, st)
  else
    match engineInstance st with
    | Some e => (Some e, st)
    | None =>
        let organizationId := coveoOrganizationId (config env) in
        let apiKey := coveoApiKey (config env) in
        if negb (truthy organizationId) || negb (truthy apiKey)
        then (None, say (console_warn credentialsWarning) st)
        else
          match buildSearchEngine
                  (engineConfig env options
                     (default EmptyString organizationId)
                     (default EmptyString apiKey)) with
          | inl e => (Some e, {| engineInstance := Some e; console := console st |})
          | inr error => (None, say (console_error initFailure error) st)
          end
    end.

(** The object [useCoveoEngine] returns: [getEngine ()] is [engine],
    [isReady] is [!!engine], and [executeFirstSearch ()] calls the
    engine when there is one. *)
Record Composable : Type := {
  engine : option SearchEngine;
  isReady : bool
}.

Definition getEngine (c : Composable) : option SearchEngine := engine c.

Definition executeFirstSearch (c : Composable) : list SearchEngine :=
  match engine c with
  | Some e => [e]
  | None => []
  end.

Definition useCoveoEngine (env : Env) (options : CoveoEngineOptions)
    (st : ModuleState) : Composable * ModuleState :=
  let '(engine, st') := initEngine env options st in
  ({| engine := engine; isReady := bool_decide (is_Some engine) |}, st').

(** Successive calls within one session, each with its own options. *)
Fixpoint useCoveoEngine_calls (env : Env) (calls : list CoveoEngineOptions)
    (st : ModuleState) : list Composable * ModuleState :=
  match calls with
  | [] => ([], st)
  | options :: rest =>
      let '(c, st1) := useCoveoEngine env options st in
      let '(cs, st2) := useCoveoEngine_calls env rest st1 in
      (c :: cs, st2)
  end.

Definition warnings (st : ModuleState) : list ConsoleEntry :=
  List.filter isWarning (console st).

End Composable.

Arguments ModuleState : clear implicits.
Arguments Composable : clear implicits.

Definition credentialsMissing (cfg : RuntimeConfig) : bool :=
  negb (truthy (coveoOrganizationId cfg)) || negb (truthy (coveoApiKey cfg)).

End UseCoveoEngine.

(** ** The state container behind the controllers

    The components import the container and its controllers from
    [@coveo/headless]; the package is not part of the sources. *)

Module Engine.

(** Modelled from the spec: the failure kinds of section 7 that a
    transport call can end with. *)
Inductive ErrorKind : Type := NetworkError | AuthError | ServerError.

(** The three criteria [createSort] lists. *)
Inductive SortCriterion : Type := Relevance | DateDescending | DateAscending.

Inductive FacetValueState : Type := idle | selected | excluded.

Inductive Scalar : Type :=
| SString (s : string)
| SNumber (n : Z)
| SBool (b : bool).

(** Modelled from the spec: the records of section 3 ([Correction],
    [Result], [FacetValueCount], [Response]); their declarations are in
    [@coveo/headless]. *)
Record Correction : Type := {
  correctedQuery : string;
  wasAutomaticallyApplied : bool;
  originalQuery : string
}.

(** Modelled from the spec: a result of section 3; the sources read its
    raw fields as [result.raw]. *)
Record Result : Type := {
  uniqueId : string;
  title : string;
  excerpt : string;
  clickUri : string;
  rank : nat;
  raw : gmap string Scalar
}.

Record FacetValueCount : Type := {
  value : string;
  count : Z;
  state : FacetValueState
}.

Record Response : Type := {
  results : list Result;
  totalCount : Z;
  facetCounts : gmap string (list FacetValueCount);
  correction : option Correction;
  durationMs : Z;
  responseId : string
}.

(** Modelled from the spec: the canonical state of section 3, with the
    bounded recent-queries list of section 4.1 as one more field. The
    container itself is missing from the sources. *)
Record CanonicalState : Type := {
  queryText : string;
  selectedFacets : gmap string (gset string);
  sortCriterion : SortCriterion;
  pageIndex : Z;
  pageSize : Z;
  lastResponse : option Response;
  requestSequence : nat;
  pendingRequestId : option nat;
  lastError : option ErrorKind;
  recentQueries : list string
}.

(** Modelled from the spec: the actions of section 3. *)
Inductive Action : Type :=
| SetQueryText (text : string)
| SubmitQuery
| ToggleFacetValue (field value : string)
| ClearFacet (field : string)
| SetSortCriterion (criterion : SortCriterion)
| SetPage (n : Z)
| ApplyCorrection
| ResponseArrived (sequence : nat) (response : Response)
| RequestFailed (sequence : nat) (error : ErrorKind).

(** Modelled from the spec: the request snapshot of sections 4.1 and 6
    handed to the transport client, tagged with the sequence number its
    completion will carry. *)
Record Request : Type := {
  req_sequence : nat;
  req_queryText : string;
  req_selectedFacets : gmap string (gset string);
  req_sortCriterion : SortCriterion;
  req_pageIndex : Z;
  req_pageSize : Z
}.

#[global] Instance ErrorKind_eq_dec : EqDecision ErrorKind.
Proof. solve_decision. Defined.
#[global] Instance SortCriterion_eq_dec : EqDecision SortCriterion.
Proof. solve_decision. Defined.
#[global] Instance FacetValueState_eq_dec : EqDecision FacetValueState.
Proof. solve_decision. Defined.
#[global] Instance Scalar_eq_dec : EqDecision Scalar.
Proof. solve_decision. Defined.
#[global] Instance Correction_eq_dec : EqDecision Correction.
Proof. solve_decision. Defined.
#[global] Instance Result_eq_dec : EqDecision Result.
Proof. solve_decision. Defined.
#[global] Instance FacetValueCount_eq_dec : EqDecision FacetValueCount.
Proof. solve_decision. Defined.
#[global] Instance Response_eq_dec : EqDecision Response.
Proof. solve_decision. Defined.
#[global] Instance CanonicalState_eq_dec : EqDecision CanonicalState.
Proof. solve_decision. Defined.

Definition initialState : CanonicalState :=
  {| queryText := EmptyString;
     selectedFacets := ∅;
     sortCriterion := Relevance;
     pageIndex := 0;
     pageSize := 10;
     lastResponse := None;
     requestSequence := 0%nat;
     pendingRequestId := None;
     lastError := None;
     recentQueries := [] |}.

(** *** Field updates *)

Definition with_queryText (q : string) (s : CanonicalState) : CanonicalState :=
  {| queryText := q;
     selectedFacets := selectedFacets s;
     sortCriterion := sortCriterion s;
     pageIndex := pageIndex s;
     pageSize := pageSize s;
     lastResponse := lastResponse s;
     requestSequence := requestSequence s;
     pendingRequestId := pendingRequestId s;
     lastError := lastError s;
     recentQueries := recentQueries s |}.

Definition with_selectedFacets (m : gmap string (gset string))
    (s : CanonicalState) : CanonicalState :=
  {| queryText := queryText s;
     selectedFacets := m;
     sortCriterion := sortCriterion s;
     pageIndex := pageIndex s;
     pageSize := pageSize s;
     lastResponse := lastResponse s;
     requestSequence := requestSequence s;
     pendingRequestId := pendingRequestId s;
     lastError := lastError s;
     recentQueries := recentQueries s |}.

Definition with_sortCriterion (c : SortCriterion) (s : CanonicalState)
    : CanonicalState :=
  {| queryText := queryText s;
     selectedFacets := selectedFacets s;
     sortCriterion := c;
     pageIndex := pageIndex s;
     pageSize := pageSize s;
     lastResponse := lastResponse s;
     requestSequence := requestSequence s;
     pendingRequestId := pendingRequestId s;
     lastError := lastError s;
     recentQueries := recentQueries s |}.

Definition with_pageIndex (n : Z) (s : CanonicalState) : CanonicalState :=
  {| queryText := queryText s;
     selectedFacets := selectedFacets s;
     sortCriterion := sortCriterion s;
     pageIndex := n;
     pageSize := pageSize s;
     lastResponse := lastResponse s;
     requestSequence := requestSequence s;
     pendingRequestId := pendingRequestId s;
     lastError := lastError s;
     recentQueries := recentQueries s |}.

Definition with_recentQueries (l : list string) (s : CanonicalState)
    : CanonicalState :=
  {| queryText := queryText s;
     selectedFacets := selectedFacets s;
     sortCriterion := sortCriterion s;
     pageIndex := pageIndex s;
     pageSize := pageSize s;
     lastResponse := lastResponse s;
     requestSequence := requestSequence s;
     pendingRequestId := pendingRequestId s;
     lastError := lastError s;
     recentQueries := l |}.

(** Modelled from the spec: completion of the pending request (sections
    4.1 and 5): the marker is cleared and the outcome stored. A failure
    leaves [lastResponse] as it was. *)
Definition settle (response : option Response) (error : option ErrorKind)
    (s : CanonicalState) : CanonicalState :=
  {| queryText := queryText s;
     selectedFacets := selectedFacets s;
     sortCriterion := sortCriterion s;
     pageIndex := pageIndex s;
     pageSize := pageSize s;
     lastResponse := response;
     requestSequence := requestSequence s;
     pendingRequestId := None;
     lastError := error;
     recentQueries := recentQueries s |}.

Definition snapshot (n : nat) (s : CanonicalState) : Request :=
  {| req_sequence := n;
     req_queryText := queryText s;
     req_selectedFacets := selectedFacets s;
     req_sortCriterion := sortCriterion s;
     req_pageIndex := pageIndex s;
     req_pageSize := pageSize s |}.

(** Modelled from the spec: a refetch (section 4.1): the sequence number
    grows by one, becomes the pending marker, and tags the snapshot of the
    state just built. *)
Definition refetch (s : CanonicalState) : CanonicalState * option Request :=
  let n := S (requestSequence s) in
  ({| queryText := queryText s;
      selectedFacets := selectedFacets s;
      sortCriterion := sortCriterion s;
      pageIndex := pageIndex s;
      pageSize := pageSize s;
      lastResponse := lastResponse s;
      requestSequence := n;
      pendingRequestId := Some n;
      lastError := lastError s;
      recentQueries := recentQueries s |},
   Some (snapshot n s)).

(** *** Pages *)

Definition ceilDiv (a b : Z) : Z := - ((- a) / b).

Definition totalOf (s : CanonicalState) : Z :=
  match lastResponse s with
  | Some r => totalCount r
  | None => 0
  end.

Definition pageCount (s : CanonicalState) : Z := ceilDiv (totalOf s) (pageSize s).

Definition lastPage (s : CanonicalState) : Z := pageCount s - 1.

(** Modelled from the spec: clamping to
    [[0, ceil(totalCount/pageSize) - 1]] (section 4.2); with no result at
    all the upper bound is below 0 and page 0 is kept. *)
Definition clampPage (s : CanonicalState) (n : Z) : Z :=
  Z.max 0 (Z.min n (lastPage s)).

(** The current page is the last one. *)
Definition isLastPage (s : CanonicalState) : Prop :=
  pageIndex s = Z.max 0 (lastPage s).

(** *** Recent queries and facets *)

(** Modelled from the spec: the recent-queries list of section 4.1: most
    recent first, no text twice, at most [cap] entries. *)
Definition pushRecent (cap : nat) (q : string) (l : list string) : list string :=
  take cap (q :: filter (fun x => x <> q) l).

Definition selectedOf (field : string) (s : CanonicalState) : gset string :=
  default ∅ (selectedFacets s !! field).

Definition toggle (v : string) (vs : gset string) : gset string :=
  if decide (v ∈ vs) then vs ∖ {[v]} else vs ∪ {[v]}.

Definition correctionOf (s : CanonicalState) : option Correction :=
  match lastResponse s with
  | Some r => correction r
  | None => None
  end.

(** The pending marker, when set, is the latest sequence number. *)
Definition pending_current (s : CanonicalState) : Prop :=
  forall p, pendingRequestId s = Some p -> p = requestSequence s.

(** *** Reducer *)

Section Reducer.
(** The cap of the recent-queries list; the spec leaves its value open. *)
Variable maxRecentQueries : nat.

(** Modelled from the spec: the reducer step of section 4.1 (with the
    intent descriptions of section 4.2 and the scenarios of section 8);
    the container is missing from the sources. The result is the updated
    state and whether the action triggers a refetch. A completion is merged
    only under the sequence guard of section 3; a merged response clears
    the error of an earlier failure. *)
Definition reduce (s : CanonicalState) (a : Action) : CanonicalState * bool :=
  match a with
  | SetQueryText text => (with_queryText text s, false)
  | SubmitQuery =>
      (with_recentQueries
         (pushRecent maxRecentQueries (queryText s) (recentQueries s))
         (with_pageIndex 0 s), true)
  | ToggleFacetValue field value =>
      (with_pageIndex 0
         (with_selectedFacets
            (<[field := toggle value (selectedOf field s)]> (selectedFacets s)) s),
       true)
  | ClearFacet field =>
      if decide (selectedOf field s = ∅) then (s, false)
      else (with_selectedFacets (<[field := ∅]> (selectedFacets s)) s, true)
  | SetSortCriterion criterion =>
      (with_pageIndex 0 (with_sortCriterion criterion s), true)
  | SetPage n => (with_pageIndex (clampPage s n) s, true)
  | ApplyCorrection =>
      match correctionOf s with
      | Some c => (with_queryText (correctedQuery c) s, true)
      | None => (s, false)
      end
  | ResponseArrived sequence response =>
      if decide (pendingRequestId s = Some sequence)
      then (settle (Some response) None s, false)
      else (s, false)
  | RequestFailed sequence error =>
      if decide (pendingRequestId s = Some sequence)
      then (settle (lastResponse s) (Some error) s, false)
      else (s, false)
  end.

(** Modelled from the spec: [dispatch] of section 4.1, returning the new
    canonical state and the transport call it issues, if any. *)
Definition dispatch (s : CanonicalState) (a : Action)
    : CanonicalState * option Request :=
  let '(s', fetch) := reduce s a in
  if fetch then refetch s' else (s', None).

Fixpoint dispatchAll (s : CanonicalState) (actions : list Action)
    : CanonicalState * list Request :=
  match actions with
  | [] => (s, [])
  | a :: rest =>
      let '(s1, r) := dispatch s a in
      let '(s2, rs) := dispatchAll s1 rest in
      (s2, option_list r ++ rs)
  end.

(** *** Controller methods the components call *)

Inductive Call : Type :=
| updateText (text : string)
| showSuggestions
| submit
| selectSuggestion (value : string)
| toggleSelect (field value : string)
| deselectAll (field : string)
| showMoreValues (field : string)
| showLessValues (field : string)
| selectPage (n : Z)
| nextPage
| previousPage
| sortBy (criterion : SortCriterion)
| applyCorrection
| logDocumentOpen (result : Result).

(** Modelled from the spec: the intent methods of section 4.2 as the
    actions they dispatch in a given state; the controllers are missing
    from the sources. Suggestion fetching, the display window of a facet
    and analytics logging dispatch nothing to canonical state;
    [selectSuggestion] updates the text and submits, as the comment in the
    search box component says. *)
Definition intent (s : CanonicalState) (c : Call) : list Action :=
  match c with
  | updateText text => [SetQueryText text]
  | showSuggestions => []
  | submit => [SubmitQuery]
  | selectSuggestion value => [SetQueryText value; SubmitQuery]
  | toggleSelect field value => [ToggleFacetValue field value]
  | deselectAll field => [ClearFacet field]
  | showMoreValues _ => []
  | showLessValues _ => []
  | selectPage n => [SetPage n]
  | nextPage =>
      let n := clampPage s (pageIndex s + 1) in
      if n =? pageIndex s then [] else [SetPage n]
  | previousPage =>
      let n := clampPage s (pageIndex s - 1) in
      if n =? pageIndex s then [] else [SetPage n]
  | sortBy criterion => [SetSortCriterion criterion]
  | applyCorrection => [ApplyCorrection]
  | logDocumentOpen _ => []
  end.

Definition perform (s : CanonicalState) (c : Call)
    : CanonicalState * list Request :=
  dispatchAll s (intent s c).

Fixpoint performAll (s : CanonicalState) (calls : list Call)
    : CanonicalState * list Request :=
  match calls with
  | [] => (s, [])
  | c :: rest =>
      let '(s1, rs1) := perform s c in
      let '(s2, rs2) := performAll s1 rest in
      (s2, rs1 ++ rs2)
  end.

End Reducer.

(** *** Analytics *)

Inductive AnalyticsEvent : Type :=
| SearchEvent (query : string) (resultCount duration : Z)
| ClickEvent (uniqueId : string) (rank : nat) (query : string)
| FacetEvent (field value : string) (newState : FacetValueState)
| CorrectionEvent (query : string).

(** Modelled from the spec: the Click event of section 4.3, which the
    engine emits for a dispatched [logDocumentOpen]. *)
Definition analyticsOf (s : CanonicalState) (c : Call) : list AnalyticsEvent :=
  match c with
  | logDocumentOpen r => [ClickEvent (uniqueId r) (rank r) (queryText s)]
  | _ => []
  end.

(** *** Controller projections *)

Record PagerState : Type := {
  currentPage : Z;
  currentPages : list Z;
  hasNextPage : bool;
  hasPreviousPage : bool;
  maxPage : Z
}.

(** Modelled from the spec: the window of at most [numberOfPages]
    consecutive page numbers around [current], kept inside [[1, maxPage]]
    (section 4.2). *)
Definition pageWindow (numberOfPages current maxPage : Z) : list Z :=
  let start := Z.max 1 (Z.min (current - numberOfPages / 2) (maxPage - numberOfPages + 1)) in
  seqZ start (Z.min numberOfPages (maxPage - start + 1)).

(** Modelled from the spec: the pager projection of section 4.2, computed
    from canonical state on every access, with the 1-based page numbers and
    the field names the pager component reads. *)
Definition pagerState (numberOfPages : Z) (s : CanonicalState) : PagerState :=
  {| currentPage := pageIndex s + 1;
     currentPages := pageWindow numberOfPages (pageIndex s + 1) (pageCount s);
     hasNextPage := pageIndex s <? lastPage s;
     hasPreviousPage := 0 <? pageIndex s;
     maxPage := pageCount s |}.

Record DidYouMeanState : Type := {
  hasQueryCorrection : bool;
  wasAutomaticallyCorrected : bool;
  queryCorrection : option Correction;
  dym_originalQuery : string
}.

(** Modelled from the spec: the correction projection of the scenario in
    section 8, with the field names the component reads. *)
Definition didYouMeanState (s : CanonicalState) : DidYouMeanState :=
  {| hasQueryCorrection := bool_decide (is_Some (correctionOf s));
     wasAutomaticallyCorrected :=
       from_option wasAutomaticallyApplied false (correctionOf s);
     queryCorrection := correctionOf s;
     dym_originalQuery := from_option originalQuery EmptyString (correctionOf s) |}.

End Engine.

(** ** composables/useSearchControllers.ts *)

Module UseSearchControllers.

(** A controller built by [@coveo/headless] on an engine, with the options
    it was built with. *)
Record Controller (SearchEngine Options : Type) : Type := {
  ctl_engine : SearchEngine;
  ctl_options : Options
}.
Arguments ctl_engine {SearchEngine Options}.
Arguments ctl_options {SearchEngine Options}.

Record SearchBoxOptions : Type := {
  numberOfSuggestions : Z;
  highlightOptions : option (string * string)
}.

Record FacetOptions : Type := {
  field : string;
  facetId : string;
  numberOfValues : Z;
  sortCriteria : string
}.

Section Factories.
Context {SearchEngine : Type}.
(** [const { engine } = useCoveoEngine()] *)
Variable engine : option SearchEngine.

Definition build {Options : Type} (options : Options)
    : option (Controller SearchEngine Options) :=
  match engine with
  | None => None
  | Some e => Some {| ctl_engine := e; ctl_options := options |}
  end.

Definition createSearchBox (numberOfSuggestions : option Z)
    (highlightOptions : option (string * string))
    : option (Controller SearchEngine SearchBoxOptions) :=
  build {| numberOfSuggestions := default 5 numberOfSuggestions;
           highlightOptions := highlightOptions |}.

Definition createResultList : option (Controller SearchEngine (list string)) :=
  build ["title"; "description"; "source"; "date"; "author"; "filetype"; "permanentid"].

Definition createFacet (field : string) (label : option string)
    : option (Controller SearchEngine FacetOptions) :=
  build {| field := field; facetId := field; numberOfValues := 8;
           sortCriteria := "occurrences" |}.

Definition createPager (numberOfPages : option Z)
    : option (Controller SearchEngine Z) :=
  build (default 5 numberOfPages).

Definition createSort : option (Controller SearchEngine Engine.SortCriterion) :=
  build Engine.Relevance.

Definition createQuerySummary : option (Controller SearchEngine unit) := build tt.

Definition createDidYouMean : option (Controller SearchEngine unit) := build tt.

End Factories.

End UseSearchControllers.

(** A handler of a component: it updates the component's refs and calls
    controller methods, recorded in call order. *)
Definition Handler (Refs : Type) : Type := Refs -> Refs * list Engine.Call.

(** JavaScript indexing of an array by a number that may be negative. *)
Definition at_index {A : Type} (l : list A) (i : Z) : option A :=
  if i <? 0 then None else l !! Z.to_nat i.

(** ** components/search/Pager.vue *)

Module Pager.
Import UseSearchControllers.

Record Refs : Type := {
  currentPage : Z;
  pages : list Z;
  hasNextPage : bool;
  hasPreviousPage : bool;
  maxPage : Z
}.

Definition setup : Refs :=
  {| currentPage := 1; pages := []; hasNextPage := false;
     hasPreviousPage := false; maxPage := 1 |}.

(** The body of the callback given to [pager.subscribe], run with
    [pager.state] as read at that moment. *)
Definition onStateChange (state : Engine.PagerState) (r : Refs) : Refs :=
  {| currentPage := Engine.currentPage state;
     pages := Engine.currentPages state;
     hasNextPage := Engine.hasNextPage state;
     hasPreviousPage := Engine.hasPreviousPage state;
     maxPage := Engine.maxPage state |}.

(** The refs hold the fields of the given pager state. *)
Definition shows (state : Engine.PagerState) (r : Refs) : Prop :=
  currentPage r = Engine.currentPage state
  /\ pages r = Engine.currentPages state
  /\ hasNextPage r = Engine.hasNextPage state
  /\ hasPreviousPage r = Engine.hasPreviousPage state
  /\ maxPage r = Engine.maxPage state.

Definition hasPagination (r : Refs) : bool := 1 <? maxPage r.

Section Handlers.
Context {SearchEngine : Type}.
(** [const pager = createPager(5)] *)
Variable pager : option (Controller SearchEngine Z).

Definition goToPage (page : Z) : Handler Refs := fun r =>
  match pager with
  | Some _ => (r, [Engine.selectPage page])
  | None => (r, [])
  end.

Definition goToNext : Handler Refs := fun r =>
  match pager with
  | Some _ => if hasNextPage r then (r, [Engine.nextPage]) else (r, [])
  | None => (r, [])
  end.

Definition goToPrevious : Handler Refs := fun r =>
  match pager with
  | Some _ => if hasPreviousPage r then (r, [Engine.previousPage]) else (r, [])
  | None => (r, [])
  end.

End Handlers.

End Pager.

(** ** components/search/Facet.vue *)

Module Facet.
Import UseSearchControllers.

(** [facet.state] as far as the component reads it. *)
Record FacetState : Type := {
  state_values : list Engine.FacetValueCount;
  canShowMoreValues : bool;
  canShowLessValues : bool
}.

Record Refs : Type := {
  values : list Engine.FacetValueCount;
  isExpanded : bool;
  canShowMore : bool;
  canShowLess : bool
}.

Definition setup : Refs :=
  {| values := []; isExpanded := true; canShowMore := false; canShowLess := false |}.

Definition onStateChange (state : FacetState) (r : Refs) : Refs :=
  {| values := state_values state;
     isExpanded := isExpanded r;
     canShowMore := canShowMoreValues state;
     canShowLess := canShowLessValues state |}.

(** The refs hold the fields of the given facet state. *)
Definition shows (state : FacetState) (r : Refs) : Prop :=
  values r = state_values state
  /\ canShowMore r = canShowMoreValues state
  /\ canShowLess r = canShowLessValues state.

Definition hasValues (r : Refs) : bool := 0 <? Z.of_nat (length (values r)).

Definition hasActiveValues (r : Refs) : bool :=
  existsb (fun v => bool_decide (Engine.state v = Engine.selected)) (values r).

Definition displayedValues (r : Refs) : list Engine.FacetValueCount := values r.

Section Handlers.
Context {SearchEngine : Type}.
(** [const facet = createFacet(props.field, props.label)] *)
Variable facet : option (Controller SearchEngine FacetOptions).

Definition toggleValue (value : Engine.FacetValueCount) : Handler Refs := fun r =>
  match facet with
  | Some f => (r, [Engine.toggleSelect (field (ctl_options f)) (Engine.value value)])
  | None => (r, [])
  end.

Definition clearSelections : Handler Refs := fun r =>
  match facet with
  | Some f => (r, [Engine.deselectAll (field (ctl_options f))])
  | None => (r, [])
  end.

Definition toggleShowMore : Handler Refs := fun r =>
  match facet with
  | Some f =>
      if canShowMore r then (r, [Engine.showMoreValues (field (ctl_options f))])
      else if canShowLess r then (r, [Engine.showLessValues (field (ctl_options f))])
      else (r, [])
  | None => (r, [])
  end.

End Handlers.

End Facet.

(** ** components/search/DidYouMean.vue *)

Module DidYouMean.
Import UseSearchControllers.

Record Refs : Type := {
  hasCorrection : bool;
  wasAutomaticallyCorrected : bool;
  correctedQuery : string;
  originalQuery : string
}.

Definition setup : Refs :=
  {| hasCorrection := false; wasAutomaticallyCorrected := false;
     correctedQuery := EmptyString; originalQuery := EmptyString |}.

Definition onStateChange (state : Engine.DidYouMeanState) (r : Refs) : Refs :=
  {| hasCorrection := Engine.hasQueryCorrection state;
     wasAutomaticallyCorrected := Engine.wasAutomaticallyCorrected state;
     correctedQuery :=
       JS.or_default (Engine.correctedQuery <$> Engine.queryCorrection state)
                     EmptyString;
     originalQuery := Engine.dym_originalQuery state |}.

Section Handlers.
Context {SearchEngine : Type}.
(** [const didYouMean = createDidYouMean()] *)
Variable didYouMean : option (Controller SearchEngine unit).

Definition applyCorrection : Handler Refs := fun r =>
  match didYouMean with
  | Some _ => (r, [Engine.applyCorrection])
  | None => (r, [])
  end.

(** The body of the [if] holds two comments and no statement. *)
Definition searchOriginal : Handler Refs := fun r =>
  match didYouMean with
  | Some _ => (r, [])
  | None => (r, [])
  end.

End Handlers.

End DidYouMean.

(** ** components/search/SearchBox.vue *)

Module SearchBox.
Import UseSearchControllers.

Record Suggestion : Type := {
  rawValue : string;
  highlightedValue : string
}.

Record Refs : Type := {
  query : string;
  suggestions : list Suggestion;
  showSuggestions : bool;
  selectedIndex : Z
}.

Definition setup : Refs :=
  {| query := EmptyString; suggestions := []; showSuggestions := false;
     selectedIndex := -1 |}.

(** The subscription callback copies [searchBox.state.suggestions]. *)
Definition onStateChange (state_suggestions : list Suggestion) (r : Refs) : Refs :=
  {| query := query r; suggestions := state_suggestions;
     showSuggestions := showSuggestions r; selectedIndex := selectedIndex r |}.

Section Handlers.
Context {SearchEngine : Type}.
(** [const searchBox = createSearchBox({ numberOfSuggestions: 5 })] *)
Variable searchBox : option (Controller SearchEngine SearchBoxOptions).

Definition onInput : Handler Refs := fun r =>
  match searchBox with
  | Some _ =>
      ({| query := query r; suggestions := suggestions r;
          showSuggestions := showSuggestions r; selectedIndex := -1 |},
       [Engine.updateText (query r); Engine.showSuggestions])
  | None => (r, [])
  end.

Definition selectSuggestion (suggestion : Suggestion) : Handler Refs := fun r =>
  match searchBox with
  | Some _ =>
      ({| query := rawValue suggestion; suggestions := suggestions r;
          showSuggestions := false; selectedIndex := selectedIndex r |},
       [Engine.selectSuggestion (rawValue suggestion)])
  | None => (r, [])
  end.

Definition onSubmit : Handler Refs := fun r =>
  match searchBox with
  | Some _ =>
      let selectedSuggestion := at_index (suggestions r) (selectedIndex r) in
      match 0 <=? selectedIndex r, selectedSuggestion with
      | true, Some suggestion => selectSuggestion suggestion r
      | _, _ =>
          ({| query := query r; suggestions := suggestions r;
              showSuggestions := false; selectedIndex := selectedIndex r |},
           [Engine.submit])
      end
  | None => (r, [])
  end.

End Handlers.

Definition navigateSuggestion (direction : Z) (r : Refs) : Refs :=
  let max := Z.of_nat (length (suggestions r)) - 1 in
  let newIndex := selectedIndex r + direction in
  {| query := query r; suggestions := suggestions r;
     showSuggestions := showSuggestions r;
     selectedIndex :=
       if newIndex <? 0 then max
       else if max <? newIndex then 0
       else newIndex |}.

(** What the timer set by [onBlur] does when it fires. *)
Definition onBlur (r : Refs) : Refs :=
  {| query := query r; suggestions := suggestions r;
     showSuggestions := false; selectedIndex := -1 |}.

End SearchBox.

(** ** composables/useCoveoAnalytics.ts *)

Module UseCoveoAnalytics.

Section Analytics.
Context {SearchEngine : Type}.
(** [const { engine } = useCoveoEngine()] *)
Variable engine : option SearchEngine.

(** The actions dispatched on the engine and the console output. *)
Definition logDocumentClick (result : Engine.Result)
    : list Engine.Call * list JS.ConsoleEntry :=
  match engine with
  | None => ([], [])
  | Some _ =>
      ([Engine.logDocumentOpen result],
       [JS.console_log "📊 Analytics: Document click logged"
          [("title", Engine.title result);
           ("uri", Engine.clickUri result);
           ("uniqueId", Engine.uniqueId result)]])
  end.

Definition logCustomEvent (eventType eventValue : string)
    (metadata : list (string * string))
    : list Engine.Call * list JS.ConsoleEntry :=
  match engine with
  | None => ([], [])
  | Some _ =>
      ([], [JS.console_log "📊 Analytics: Custom event logged"
              (("type", eventType) :: ("value", eventValue) :: metadata)])
  end.

End Analytics.

End UseCoveoAnalytics.

(** ** The result item component *)

Module ResultItem.

(** [props.result.raw.date], typed [number | undefined]. *)
Definition dateValue (result : Engine.Result) : option Z :=
  match Engine.raw result !! "date" with
  | Some (Engine.SNumber d) => Some d
  | _ => None
  end.

Definition stringField (name : string) (result : Engine.Result) : option string :=
  match Engine.raw result !! name with
  | Some (Engine.SString s) => Some s
  | _ => None
  end.

Definition fileType : Engine.Result -> option string := stringField "filetype".
Definition source : Engine.Result -> option string := stringField "source".
Definition author : Engine.Result -> option string := stringField "author".

(** The argument of [new Date(...)]: the time in milliseconds. *)
Definition dateMillis (dateValue : Z) : Z :=
  if 10 ^ 12 <? dateValue then dateValue else dateValue * 1000.

Section Formatting.
(** [new Date(ms).toLocaleDateString('en-US', ...)] with the options of the
    component, which does not throw. *)
Variable toLocaleDateString : Z -> string.

Definition formattedDate (result : Engine.Result) : option string :=
  match dateValue result with
  | None => None
  | Some d =>
      if d =? 0 then None
      else Some (toLocaleDateString (dateMillis d))
  end.

End Formatting.

(** The events the component emits to its parent. *)
Inductive Emitted : Type :=
| emit_click (result : Engine.Result).

Definition handleClick (result : Engine.Result) : list Emitted :=
  [emit_click result].

(** Where on the card a click lands: on the title anchor, which opens
    [clickUri] in a new tab, or anywhere else inside the article. *)
Inductive ClickTarget : Type := TitleLink | Card.

(** What the browser does on its own for the click. *)
Inductive Navigation : Type :=
| open_new_tab (uri : string).

(** The template: the anchor has [@click.stop] and no handler, so the click
    does not reach the article; the article has [@click="handleClick"]. *)
Definition onClick (target : ClickTarget) (result : Engine.Result)
    : list Emitted * list Navigation :=
  match target with
  | TitleLink => ([], [open_new_tab (Engine.clickUri result)])
  | Card => (handleClick result, [])
  end.

End ResultItem.

(** ** The result list component *)

Module ResultList.
Import UseSearchControllers.

(** [resultList.state] as far as the component reads it. *)
Record ResultListState : Type := {
  state_results : list Engine.Result;
  state_isLoading : bool;
  hasResults : bool;
  searchResponseId : string
}.

Record Refs : Type := {
  results : list Engine.Result;
  isLoading : bool;
  hasSearched : bool
}.

Definition setup : Refs :=
  {| results := []; isLoading := false; hasSearched := false |}.

Definition onStateChange (state : ResultListState) (r : Refs) : Refs :=
  {| results := state_results state;
     isLoading := state_isLoading state;
     hasSearched :=
       hasResults state || negb (String.eqb (searchResponseId state) EmptyString) |}.

Section Handlers.
Context {SearchEngine : Type}.
Variable engine : option SearchEngine.

Definition trackClick (result : Engine.Result)
    : list Engine.Call * list JS.ConsoleEntry :=
  UseCoveoAnalytics.logDocumentClick engine result.

(** [<ResultItem @click="trackClick(result)">]: every [click] the item
    emits runs [trackClick]; the outcome of a user click on the item. *)
Definition onResultClick (target : ResultItem.ClickTarget) (result : Engine.Result)
    : list Engine.Call * list JS.ConsoleEntry * list ResultItem.Navigation :=
  let '(emitted, navigation) := ResultItem.onClick target result in
  let logged :=
    map (fun e => match e with ResultItem.emit_click r => trackClick r end) emitted in
  (concat (map fst logged), concat (map snd logged), navigation).

End Handlers.

End ResultList.

(** ** A component subscribed to a controller

    The components keep what they show in refs of their own, written by
    the callback they pass to [subscribe] in [onMounted] and no longer
    after [onUnmounted]. *)

Module Subscription.

Inductive Stage : Type := Created | Mounted | Unmounted.

Inductive Event : Type :=
| Dispatched (a : Engine.Action)
| Mount
| Unmount.

#[global] Instance Stage_eq_dec : EqDecision Stage.
Proof. solve_decision. Defined.

Record World (Refs : Type) : Type := {
  canonical : Engine.CanonicalState;
  refs : Refs;
  stage : Stage
}.
Arguments canonical {Refs}.
Arguments refs {Refs}.
Arguments stage {Refs}.

Section Consumer.
Context {Proj Refs : Type}.
Variable maxRecentQueries : nat.
(** Whether [subscribe] runs the listener once at subscription time; the
    spec does not say, the theorems hold either way. *)
Variable immediate : bool.
(** [controller.state], recomputed from canonical state when read. *)
Variable project : Engine.CanonicalState -> Proj.
(** The body of the callback of the component. *)
Variable onStateChange : Proj -> Refs -> Refs.

Definition notify (w : World Refs) : World Refs :=
  match stage w with
  | Mounted =>
      {| canonical := canonical w;
         refs := onStateChange (project (canonical w)) (refs w);
         stage := Mounted |}
  | _ => w
  end.

(** Subscribers are notified after an action that changed the state and
    not after a no-op (section 4.1 of the spec). *)
Definition step (w : World Refs) (e : Event) : World Refs :=
  match e with
  | Dispatched a =>
      let s' := fst (Engine.dispatch maxRecentQueries (canonical w) a) in
      if decide (s' = canonical w) then w
      else notify {| canonical := s'; refs := refs w; stage := stage w |}
  | Mount =>
      match stage w with
      | Created =>
          let w' := {| canonical := canonical w; refs := refs w; stage := Mounted |} in
          if immediate then notify w' else w'
      | _ => w
      end
  | Unmount =>
      match stage w with
      | Mounted => {| canonical := canonical w; refs := refs w; stage := Unmounted |}
      | _ => w
      end
  end.

Definition run (w : World Refs) (events : list Event) : World Refs :=
  fold_left step events w.

(** The refs hold what the callback would write now. *)
Definition synced (w : World Refs) : Prop :=
  refs w = onStateChange (project (canonical w)) (refs w).

End Consumer.


End Subscription.

(** ** components/search/SortDropdown.vue *)

Module SortDropdown.
Import UseSearchControllers.

Record Refs : Type := {
  selectedSort : string
}.

Definition setup : Refs := {| selectedSort := "relevance" |}.

(** The values of the [<option>] elements of the select. *)
Definition optionValues : list string := ["relevance"; "date-desc"; "date-asc"].

(** The own properties of the [sortCriteria] object literal, keyed by
    option value. *)
Definition sortCriteria : gmap string Engine.SortCriterion :=
  {[ "relevance" := Engine.Relevance;
     "date-desc" := Engine.DateDescending;
     "date-asc" := Engine.DateAscending ]}.

(** The names a plain object inherits from [Object.prototype] (left as the
    language defines it); each reads as a function or an object, hence as
    a truthy value. *)
Definition inheritedNames : list string :=
  ["constructor"; "__proto__"; "hasOwnProperty"; "isPrototypeOf";
   "propertyIsEnumerable"; "toLocaleString"; "toString"; "valueOf";
   "__defineGetter__"; "__defineSetter__"; "__lookupGetter__";
   "__lookupSetter__"].

(** What indexing the object gives when it is not [undefined]: one of its
    own criteria or a member inherited under that name. *)
Inductive Member : Type :=
| criterion (c : Engine.SortCriterion)
| inherited (name : string).

(** [sortCriteria[key]] *)
Definition sortCriteria_at (key : string) : option Member :=
  match sortCriteria !! key with
  | Some c => Some (criterion c)
  | None =>
      if bool_decide (key ∈ inheritedNames) then Some (inherited key) else None
  end.

(** The calls on the sort controller, with the value they pass. *)
Inductive SortCall : Type :=
| sortBy (argument : Member).

Section Handlers.
Context {SearchEngine : Type}.
(** [const sort = createSort()] *)
Variable sort : option (Controller SearchEngine Engine.SortCriterion).

Definition onSortChange (r : Refs) : Refs * list SortCall :=
  let criterion := sortCriteria_at (selectedSort r) in
  match sort, criterion with
  | Some _, Some c => (r, [sortBy c])
  | _, _ => (r, [])
  end.

End Handlers.

End SortDropdown.

(** ** pages/index.vue *)

Module IndexPage.

(** The [field] props of the three facets the page renders. *)
Definition facetFields : list string := ["source"; "filetype"; "author"].

Section Page.
Context {SearchEngine : Type}.
(** [const { executeFirstSearch, isReady } = useCoveoEngine()] *)
Variable composable : UseCoveoEngine.Composable SearchEngine.

(** The engines on which [executeFirstSearch] is run by the mounted hook. *)
Definition onMounted : list SearchEngine :=
  if UseCoveoEngine.isReady composable
  then UseCoveoEngine.executeFirstSearch composable
  else [].

End Page.

End IndexPage.

(** ** The templates of the facet and correction components *)

Module FacetTemplate.

(** [@click="isExpanded = !isExpanded"] on the facet header. *)
Definition toggleExpanded (r : Facet.Refs) : Facet.Refs :=
  {| Facet.values := Facet.values r;
     Facet.isExpanded := negb (Facet.isExpanded r);
     Facet.canShowMore := Facet.canShowMore r;
     Facet.canShowLess := Facet.canShowLess r |}.

(** The clear button: inside [v-if="hasValues"] and [v-if="isExpanded"],
    itself under [v-if="hasActiveValues"]. *)
Definition clearButtonShown (r : Facet.Refs) : bool :=
  Facet.hasValues r && Facet.isExpanded r && Facet.hasActiveValues r.

(** The show more/less button: inside the same two conditions, itself
    under [v-if="canShowMore || canShowLess"]. *)
Definition showMoreButtonShown (r : Facet.Refs) : bool :=
  Facet.hasValues r && Facet.isExpanded r
  && (Facet.canShowMore r || Facet.canShowLess r).

End FacetTemplate.

Module DidYouMeanTemplate.

Inductive Button : Type := SearchOriginalButton | ApplyCorrectionButton.

(** The one button the template renders: none without a correction
    ([v-if="hasCorrection"]), the search-original button after an automatic
    correction ([v-if="wasAutomaticallyCorrected"]), the correction button
    otherwise ([v-else]). *)
Definition rendered (r : DidYouMean.Refs) : option Button :=
  if DidYouMean.hasCorrection r
  then Some (if DidYouMean.wasAutomaticallyCorrected r
             then SearchOriginalButton
             else ApplyCorrectionButton)
  else None.

Section Clicks.
Context {SearchEngine : Type}.
Variable didYouMean : option (UseSearchControllers.Controller SearchEngine unit).

Definition click (b : Button) : Handler DidYouMean.Refs :=
  match b with
  | SearchOriginalButton => DidYouMean.searchOriginal didYouMean
  | ApplyCorrectionButton => DidYouMean.applyCorrection didYouMean
  end.

End Clicks.

End DidYouMeanTemplate.

(** ** Key presses in the search box *)

Module SearchBoxKeys.

(** The arrow keys pressed one after the other, [1] for down and [-1] for
    up, as the template binds them to [navigateSuggestion]. *)
Definition navigateAll (directions : list Z) (r : SearchBox.Refs) : SearchBox.Refs :=
  fold_left (fun r d => SearchBox.navigateSuggestion d r) directions r.

(** [@focus="showSuggestions = true"] on the input. *)
Definition onFocus (r : SearchBox.Refs) : SearchBox.Refs :=
  {| SearchBox.query := SearchBox.query r;
     SearchBox.suggestions := SearchBox.suggestions r;
     SearchBox.showSuggestions := true;
     SearchBox.selectedIndex := SearchBox.selectedIndex r |}.

End SearchBoxKeys.

(** ** The query summary component *)

Module QuerySummary.

(** [querySummary.state] as far as the component reads it. *)
Record QuerySummaryState : Type := {
  total : Z;
  state_firstResult : Z;
  state_lastResult : Z;
  state_query : string;
  state_durationInMilliseconds : Z;
  state_hasResults : bool
}.

Record Refs : Type := {
  totalResults : Z;
  firstResult : Z;
  lastResult : Z;
  query : string;
  durationInMilliseconds : Z;
  hasResults : bool
}.

Definition setup : Refs :=
  {| totalResults := 0; firstResult := 0; lastResult := 0;
     query := EmptyString; durationInMilliseconds := 0; hasResults := false |}.

Definition onStateChange (state : QuerySummaryState) (r : Refs) : Refs :=
  {| totalResults := total state;
     firstResult := state_firstResult state;
     lastResult := state_lastResult state;
     query := state_query state;
     durationInMilliseconds := state_durationInMilliseconds state;
     hasResults := state_hasResults state |}.

End QuerySummary.

(** ** What it means for the refs of a component to show a controller state *)

Module ComponentViews.





Section Follows.
Import Subscription.
Context {Proj Refs : Type}.
(** The callback of the component and what its refs showing a controller
    state means. *)
Variable onStateChange : Proj -> Refs -> Refs.
Variable shows : Proj -> Refs -> Prop.


End Follows.

End ComponentViews.

(** ** Sample inputs *)

Module Examples.
Import JS UseCoveoEngine.

Definition noOptions : CoveoEngineOptions :=
  {| searchHub := None; pipeline := None |}.

Definition docsHub : CoveoEngineOptions :=
  {| searchHub := Some "Docs"; pipeline := Some "docs-pipeline" |}.

Definition unconfigured : Env :=
  {| isClient := true;
     config := {| coveoOrganizationId := None; coveoApiKey := None |};
     windowHref := Some "http://localhost:3000/" |}.

Definition unconfiguredServer : Env :=
  {| isClient := false;
     config := {| coveoOrganizationId := None; coveoApiKey := None |};
     windowHref := None |}.

Definition configured : Env :=
  {| isClient := true;
     config := {| coveoOrganizationId := Some "acmeorg";
                  coveoApiKey := Some "xx-key" |};
     windowHref := Some "http://localhost:3000/" |}.

(** An engine that is nothing but the configuration it was built with. *)
Definition configOnly (c : SearchEngineConfiguration)
    : SearchEngineConfiguration + string := inl c.


Definition result1 : Engine.Result :=
  {| Engine.uniqueId := "doc-1";
     Engine.title := "Brewing guide";
     Engine.excerpt := "How to brew";
     Engine.clickUri := "https://example.org/brew";
     Engine.rank := 0%nat;
     Engine.raw := {[ "date" := Engine.SNumber 1700000000 ]} |}.

Definition responseTotal (n : Z) (c : option Engine.Correction) (id : string)
    : Engine.Response :=
  {| Engine.results := [result1];
     Engine.totalCount := n;
     Engine.facetCounts := ∅;
     Engine.correction := c;
     Engine.durationMs := 12;
     Engine.responseId := id |}.

Definition coffee : Engine.Correction :=
  {| Engine.correctedQuery := "coffee";
     Engine.wasAutomaticallyApplied := false;
     Engine.originalQuery := "cofee" |}.

(** The state after the first submitted query was answered with [n]
    results in total and correction [c]. *)
Definition answered (n : Z) (c : option Engine.Correction) : Engine.CanonicalState :=
  fst (Engine.dispatchAll 5 Engine.initialState
         [Engine.SetQueryText "cofee"; Engine.SubmitQuery;
          Engine.ResponseArrived 1 (responseTotal n c "r1")]).



Definition pagerOf (e : unit) : option (UseSearchControllers.Controller unit Z) :=
  UseSearchControllers.createPager (Some e) (Some 5).

End Examples.

(** ** The template of the result list *)

Module ResultListTemplate.

(** What the template renders: the loading skeletons ([v-if="isLoading"]),
    the no-results message
    ([v-else-if="results.length === 0 && hasSearched"]) or the list of
    result items ([v-else]). *)
Inductive View : Type :=
| Skeletons
| NoResults
| Items (results : list Engine.Result).

Definition view (r : ResultList.Refs) : View :=
  if ResultList.isLoading r then Skeletons
  else if (length (ResultList.results r) =? 0)%nat && ResultList.hasSearched r
       then NoResults
       else Items (ResultList.results r).

End ResultListTemplate.

(** ** A user clicking through the result list *)

Module ResultClicks.

Definition isCard (t : ResultItem.ClickTarget) : bool :=
  match t with
  | ResultItem.Card => true
  | ResultItem.TitleLink => false
  end.

Section Clicks.
Context {SearchEngine : Type}.
Variable engine : option SearchEngine.

(** The clicks handled one after the other: what was dispatched on the
    engine, what was written to the console, what the browser opened. *)
Fixpoint clickAll (clicks : list (ResultItem.ClickTarget * Engine.Result))
    : list Engine.Call * list JS.ConsoleEntry * list ResultItem.Navigation :=
  match clicks with
  | [] => ([], [], [])
  | (target, result) :: rest =>
      let '(calls, console, navigation) :=
        ResultList.onResultClick engine target result in
      let '(calls', console', navigation') := clickAll rest in
      (calls ++ calls', console ++ console', navigation ++ navigation')
  end.

End Clicks.

End ResultClicks.

(** ** More sample inputs *)

Module Samples.
Import JS UseCoveoEngine.

Definition configuredServer : Env :=
  {| isClient := false;
     config := {| coveoOrganizationId := Some "acmeorg";
                  coveoApiKey := Some "xx-key" |};
     windowHref := None |}.

(** A module state in which an engine is stored. *)
Definition stored : ModuleState SearchEngineConfiguration :=
  {| engineInstance :=
       Some (engineConfig Examples.configured Examples.noOptions "acmeorg" "xx-key");
     console := [] |}.

(** A constructor that throws unless a pipeline is configured. *)
Definition needsPipeline (c : SearchEngineConfiguration)
    : SearchEngineConfiguration + string :=
  match search_pipeline (search c) with
  | Some _ => inl c
  | None => inr "pipeline is required"
  end.

(** Page 6 of a hundred results was asked for, then a response with seven
    results and a correction arrived: the page index is 5 on a one-page
    result. *)
Definition correctedOnPage5 : Engine.CanonicalState :=
  fst (Engine.dispatchAll 5 Engine.initialState
         [Engine.SetQueryText "cofee"; Engine.SubmitQuery;
          Engine.ResponseArrived 1 (Examples.responseTotal 100 None "r1");
          Engine.SetPage 5;
          Engine.ResponseArrived 2
            (Examples.responseTotal 7 (Some Examples.coffee) "r2")]).

(** Page 4 of a hundred results for [tea] is shown and [cofee] has been
    typed. *)
Definition typedOnPage3 : list Engine.Action :=
  [Engine.SetQueryText "tea"; Engine.SubmitQuery;
   Engine.ResponseArrived 1 (Examples.responseTotal 100 None "r1");
   Engine.SetPage 3;
   Engine.ResponseArrived 2 (Examples.responseTotal 100 None "r2");
   Engine.SetQueryText "cofee"].

Definition suggestion (text : string) : SearchBox.Suggestion :=
  {| SearchBox.rawValue := text; SearchBox.highlightedValue := text |}.

(** The search box with [cof] typed, three suggestions shown and the
    second one highlighted. *)
Definition typing : SearchBox.Refs :=
  {| SearchBox.query := "cof";
     SearchBox.suggestions := [suggestion "coffee"; suggestion "coffee beans";
                               suggestion "coffin"];
     SearchBox.showSuggestions := true;
     SearchBox.selectedIndex := 1 |}.

Definition searchBoxOf (e : unit)
    : option (UseSearchControllers.Controller unit UseSearchControllers.SearchBoxOptions) :=
  UseSearchControllers.createSearchBox (Some e) (Some 5) None.

Definition resultDated (d : Z) : Engine.Result :=
  {| Engine.uniqueId := "doc-2";
     Engine.title := "Release notes";
     Engine.excerpt := "What changed";
     Engine.clickUri := "https://example.org/notes";
     Engine.rank := 1%nat;
     Engine.raw := {[ "date" := Engine.SNumber d ]} |}.

Definition facetRefs : Facet.Refs :=
  {| Facet.values :=
       [ {| Engine.value := "pdf"; Engine.count := 4; Engine.state := Engine.selected |};
         {| Engine.value := "html"; Engine.count := 9; Engine.state := Engine.idle |} ];
     Facet.isExpanded := true;
     Facet.canShowMore := false;
     Facet.canShowLess := true |}.

End Samples.

(** * Properties *)

(** ** Engine construction *)

Section UseCoveoEngineFacts.
Import JS UseCoveoEngine.
Context {SearchEngine : Type}.
Variable buildSearchEngine : SearchEngineConfiguration -> SearchEngine + string.

Lemma initEngine_server (env : Env) options (st : ModuleState SearchEngine) :
  isClient env = false ->
  initEngine buildSearchEngine env options st = (None, st).
Proof. intros H. unfold initEngine. now rewrite H. Qed.

Lemma initEngine_existing (env : Env) options (st : ModuleState SearchEngine) e :
  isClient env = true ->
  engineInstance st = Some e ->
  initEngine buildSearchEngine env options st = (Some e, st).
Proof. intros Hc He. unfold initEngine. now rewrite Hc, He. Qed.

Lemma initEngine_missing (env : Env) options (st : ModuleState SearchEngine) :
  isClient env = true ->
  credentialsMissing (config env) = true ->
  engineInstance st = None ->
  initEngine buildSearchEngine env options st
  = (None, say (console_warn credentialsWarning) st).
Proof.
  intros Hc Hm He. unfold initEngine, credentialsMissing in *.
  now rewrite Hc, He, Hm.
Qed.

Lemma initEngine_success (env : Env) options (st st1 : ModuleState SearchEngine) e :
  initEngine buildSearchEngine env options st = (Some e, st1) ->
  isClient env = true /\ engineInstance st1 = Some e.
Proof.
  unfold initEngine. destruct (isClient env); simpl; [|discriminate].
  destruct (engineInstance st) as [e0|] eqn:He.
  - intros [= -> <-]. auto.
  - destruct (_ || _); [discriminate|].
    destruct (buildSearchEngine _); [|discriminate].
    intros [= -> <-]. auto.
Qed.

Lemma calls_missing (env : Env) calls (st : ModuleState SearchEngine) :
  credentialsMissing (config env) = true ->
  engineInstance st = None ->
  let '(cs, st') := useCoveoEngine_calls buildSearchEngine env calls st in
  cs = map (fun _ => {| engine := None; isReady := false |}) calls
  /\ engineInstance st' = None
  /\ console st'
     = console st ++
       (if isClient env
        then replicate (length calls) (console_warn credentialsWarning)
        else []).
Proof.
  intros Hm. revert st. induction calls as [|o calls IH]; intros st He; simpl.
  - split; [reflexivity|]. split; [assumption|].
    destruct (isClient env); now rewrite app_nil_r.
  - unfold useCoveoEngine at 1.
    destruct (isClient env) eqn:Hc.
    + rewrite initEngine_missing by assumption.
      specialize (IH (say (console_warn credentialsWarning) st) He).
      destruct (useCoveoEngine_calls _ _ _ _) as [cs st'].
      destruct IH as (-> & He' & Hcon).
      split; [reflexivity|]. split; [assumption|].
      rewrite Hcon. simpl. now rewrite <- app_assoc.
    + rewrite initEngine_server by assumption.
      specialize (IH st He).
      destruct (useCoveoEngine_calls _ _ _ _) as [cs st'].
      destruct IH as (-> & He' & Hcon).
      split; [reflexivity|]. split; assumption.
Qed.

Lemma calls_existing (env : Env) calls (st : ModuleState SearchEngine) e :
  isClient env = true ->
  engineInstance st = Some e ->
  useCoveoEngine_calls buildSearchEngine env calls st
  = (map (fun _ => {| engine := Some e; isReady := true |}) calls, st).
Proof.
  intros Hc He. induction calls as [|o calls IH]; simpl; [reflexivity|].
  unfold useCoveoEngine at 1. rewrite (initEngine_existing _ _ _ e) by assumption.
  now rewrite IH.
Qed.

(** C2, as the code has it: with the organization id or the API key
    missing, every call of [useCoveoEngine] in a session yields a null
    engine that is not ready, no engine is ever stored, and on the client
    each call writes the credentials warning to the console once more, so
    the console holds one warning per call; on the server nothing is
    written. *)
Theorem missing_credentials_warn_on_every_call
    (env : Env) (calls : list CoveoEngineOptions) :
  credentialsMissing (config env) = true ->
  let '(cs, st) := useCoveoEngine_calls buildSearchEngine env calls initialModule in
  cs = map (fun _ => {| engine := None; isReady := false |}) calls
  /\ engineInstance st = None
  /\ console st
     = if isClient env
       then replicate (length calls) (console_warn credentialsWarning)
       else [].
Proof.
  intros Hm.
  pose proof (calls_missing env calls initialModule Hm eq_refl) as H.
  destruct (useCoveoEngine_calls _ _ _ _) as [cs st]. exact H.
Qed.

(** C9: once a call of [useCoveoEngine] has returned an engine, every later
    call of the session returns that same engine, whatever options it is
    given, and leaves the stored instance and the console as they are. *)
Theorem engine_singleton
    (env : Env) options (st st1 : ModuleState SearchEngine) e
    (calls : list CoveoEngineOptions) :
  initEngine buildSearchEngine env options st = (Some e, st1) ->
  useCoveoEngine_calls buildSearchEngine env calls st1
  = (map (fun _ => {| engine := Some e; isReady := true |}) calls, st1).
Proof.
  intros H. apply initEngine_success in H as [Hc He].
  now apply calls_existing.
Qed.

End UseCoveoEngineFacts.


Lemma missing_credentials_warn_on_every_call_witness :
  let '(cs, st) :=
    UseCoveoEngine.useCoveoEngine_calls Examples.configOnly Examples.unconfigured
      [Examples.noOptions; Examples.docsHub; Examples.noOptions]
      UseCoveoEngine.initialModule in
  length cs = 3%nat /\ length (UseCoveoEngine.console st) = 3%nat.
Proof.
  pose proof (missing_credentials_warn_on_every_call Examples.configOnly
                Examples.unconfigured
                [Examples.noOptions; Examples.docsHub; Examples.noOptions]
                eq_refl) as H.
  destruct (UseCoveoEngine.useCoveoEngine_calls _ _ _ _) as [cs st].
  destruct H as (-> & _ & ->). split; reflexivity.
Defined.

(** C2 as stated fails: two calls with missing credentials report the
    misconfiguration twice, not once, and a call during server rendering
    reports nothing. *)
Lemma missing_credentials_not_reported_once :
  let st :=
    snd (UseCoveoEngine.useCoveoEngine_calls Examples.configOnly Examples.unconfigured
           [Examples.noOptions; Examples.noOptions] UseCoveoEngine.initialModule) in
  let st_server :=
    snd (UseCoveoEngine.useCoveoEngine_calls Examples.configOnly
           Examples.unconfiguredServer [Examples.noOptions]
           UseCoveoEngine.initialModule) in
  UseCoveoEngine.warnings st
  = [JS.console_warn UseCoveoEngine.credentialsWarning;
     JS.console_warn UseCoveoEngine.credentialsWarning]
  /\ length (UseCoveoEngine.warnings st) <> 1%nat
  /\ UseCoveoEngine.console st_server = [].
Proof. split; [reflexivity | split; [discriminate | reflexivity]]. Qed.

Lemma engine_singleton_witness :
  let '(first, st1) :=
    UseCoveoEngine.initEngine Examples.configOnly Examples.configured
      Examples.noOptions UseCoveoEngine.initialModule in
  exists e,
    first = Some e
    /\ UseCoveoEngine.search_searchHub (UseCoveoEngine.search e) = "NuxtDemo"
    /\ UseCoveoEngine.useCoveoEngine_calls Examples.configOnly Examples.configured
         [Examples.docsHub] st1
       = ([{| UseCoveoEngine.engine := Some e; UseCoveoEngine.isReady := true |}], st1).
Proof.
  eexists. split; [reflexivity|]. split; [reflexivity|].
  exact (engine_singleton Examples.configOnly Examples.configured Examples.noOptions
           UseCoveoEngine.initialModule _ _ [Examples.docsHub] eq_refl).
Defined.

(** ** The state container *)

Section EngineFacts.
Import Engine.
Variable maxRecentQueries : nat.

Local Abbreviation dispatch := (Engine.dispatch maxRecentQueries).
Local Abbreviation dispatchAll := (Engine.dispatchAll maxRecentQueries).
Local Abbreviation reduce := (Engine.reduce maxRecentQueries).

Lemma reduce_sequence s a :
  requestSequence (fst (reduce s a)) = requestSequence s.
Proof.
  destruct a; simpl; try reflexivity;
    repeat (case_decide || case_match); reflexivity.
Qed.

Lemma reduce_pending s a p :
  pendingRequestId (fst (reduce s a)) = Some p -> pendingRequestId s = Some p.
Proof.
  destruct a; simpl; try (intros H; exact H);
    repeat (case_decide || case_match); simpl; congruence.
Qed.

Lemma dispatch_request s a s' r :
  dispatch s a = (s', Some r) ->
  req_sequence r = S (requestSequence s)
  /\ requestSequence s' = S (requestSequence s)
  /\ pendingRequestId s' = Some (S (requestSequence s)).
Proof.
  unfold Engine.dispatch. pose proof (reduce_sequence s a) as Hseq.
  destruct (reduce s a) as [s1 fetch]. simpl in Hseq.
  destruct fetch; [|discriminate].
  unfold refetch. intros [= <- <-]. simpl. rewrite Hseq. auto.
Qed.

Lemma dispatch_sequence_mono s a :
  (requestSequence s <= requestSequence (fst (dispatch s a)))%nat.
Proof.
  unfold Engine.dispatch. pose proof (reduce_sequence s a) as Hseq.
  destruct (reduce s a) as [s1 fetch]. simpl in Hseq.
  destruct fetch; simpl; lia.
Qed.

Lemma dispatch_pending_current s a :
  pending_current s -> pending_current (fst (dispatch s a)).
Proof.
  unfold Engine.dispatch, pending_current. intros Hs.
  pose proof (reduce_sequence s a) as Hseq.
  pose proof (reduce_pending s a) as Hpen.
  destruct (reduce s a) as [s1 fetch]. simpl in Hseq, Hpen.
  destruct fetch; simpl.
  - intros p [= <-]. reflexivity.
  - intros p Hp. rewrite Hseq. auto.
Qed.

Lemma dispatchAll_invariant s actions :
  pending_current s ->
  pending_current (fst (dispatchAll s actions))
  /\ (requestSequence s <= requestSequence (fst (dispatchAll s actions)))%nat.
Proof.
  revert s. induction actions as [|a actions IH]; intros s Hs; simpl.
  - split; [assumption | lia].
  - pose proof (dispatch_pending_current s a Hs) as H1.
    pose proof (dispatch_sequence_mono s a) as H2.
    destruct (dispatch s a) as [s1 r]. simpl in H1, H2.
    specialize (IH s1 H1).
    destruct (dispatchAll s1 actions) as [s2 rs]. simpl in *.
    split; [tauto | lia].
Qed.

Lemma stale_completion_discarded s n :
  pendingRequestId s <> Some n ->
  (forall response, dispatch s (ResponseArrived n response) = (s, None))
  /\ (forall error, dispatch s (RequestFailed n error) = (s, None)).
Proof.
  intros Hne. split; intros x; unfold Engine.dispatch; simpl;
    (case_decide; [contradiction | reflexivity]).
Qed.

Lemma current_response_merged s n response :
  pendingRequestId s = Some n ->
  dispatch s (ResponseArrived n response) = (settle (Some response) None s, None).
Proof.
  intros Hp. unfold Engine.dispatch. simpl.
  case_decide; [reflexivity | contradiction].
Qed.

(** C1: a completion whose sequence number is not the pending one leaves
    canonical state as it is and issues nothing. For every pair of requests
    A and then B, triggered by any two actions with any actions dispatched
    between them, B's number is greater than A's and B's number is the
    pending one once B is triggered. From then on, whatever is dispatched,
    a response or failure of A is discarded; and as long as B is the
    pending request its response is merged when it arrives, after which
    the arrival of A's response changes nothing: the state shows B's
    response. *)
Theorem sequence_guard (s0 s1 s2 : CanonicalState) (a b : Action)
    (mid : list Action) (reqA reqB : Request) :
  dispatch s0 a = (s1, Some reqA) ->
  dispatch (fst (dispatchAll s1 mid)) b = (s2, Some reqB) ->
  (req_sequence reqA < req_sequence reqB)%nat
  /\ (forall s n, pendingRequestId s <> Some n ->
        (forall response, dispatch s (ResponseArrived n response) = (s, None))
        /\ (forall error, dispatch s (RequestFailed n error) = (s, None)))
  /\ (forall later : list Action,
        let s := fst (dispatchAll s2 later) in
        (forall response,
           dispatch s (ResponseArrived (req_sequence reqA) response) = (s, None))
        /\ (forall error,
              dispatch s (RequestFailed (req_sequence reqA) error) = (s, None)))
  /\ pendingRequestId s2 = Some (req_sequence reqB)
  /\ (forall (later : list Action) rA rB,
        let s := fst (dispatchAll s2 later) in
        pendingRequestId s = Some (req_sequence reqB) ->
        let s3 := fst (dispatch s (ResponseArrived (req_sequence reqB) rB)) in
        let s4 := fst (dispatch s3 (ResponseArrived (req_sequence reqA) rA)) in
        lastResponse s3 = Some rB /\ s4 = s3).
Proof.
  intros HA HB.
  apply dispatch_request in HA as (HseqA & Hs1 & Hp1).
  assert (Hinv1 : pending_current s1).
  { intros p Hp. rewrite Hp1 in Hp. injection Hp as <-. now rewrite Hs1. }
  destruct (dispatchAll_invariant s1 mid Hinv1) as [_ Hmid].
  apply dispatch_request in HB as (HseqB & Hs2 & Hp2).
  assert (Hinv : pending_current s2).
  { intros p Hp. rewrite Hp2 in Hp. injection Hp as <-. now rewrite Hs2. }
  split; [lia|]. split; [apply stale_completion_discarded|]. split; [|split].
  - intros later s. apply stale_completion_discarded.
    destruct (dispatchAll_invariant s2 later Hinv) as [Hcur Hmono].
    fold s in Hcur, Hmono. intros Hp. apply Hcur in Hp. lia.
  - rewrite Hp2. f_equal. lia.
  - intros later rA rB s Hpending.
    rewrite (current_response_merged s (req_sequence reqB) rB Hpending).
    simpl. split; reflexivity.
Qed.

(** *** Recent queries *)

Lemma pushRecent_length cap q l : (length (pushRecent cap q l) <= cap)%nat.
Proof. unfold pushRecent. rewrite length_take. lia. Qed.

Lemma pushRecent_NoDup cap q l : NoDup l -> NoDup (pushRecent cap q l).
Proof.
  intros Hl. unfold pushRecent.
  apply (sublist_NoDup _ (q :: filter (fun x => x <> q) l)); [|apply sublist_take].
  constructor.
  - rewrite list_elem_of_filter. tauto.
  - now apply NoDup_filter.
Qed.

Lemma pushRecent_head cap q l : (0 < cap)%nat -> head (pushRecent cap q l) = Some q.
Proof. unfold pushRecent. destruct cap; [lia | reflexivity]. Qed.

Lemma pushRecent_sublist cap q l : pushRecent cap q l `sublist_of` q :: l.
Proof.
  unfold pushRecent. etransitivity; [apply sublist_take|].
  apply sublist_skip, sublist_filter.
Qed.

Lemma recent_NoDup_step s a :
  NoDup (recentQueries s) -> NoDup (recentQueries (fst (dispatch s a))).
Proof.
  intros Hs. unfold Engine.dispatch.
  assert (H : NoDup (recentQueries (fst (reduce s a)))).
  { destruct a; simpl; try (case_decide; simpl);
      try (destruct (correctionOf s); simpl);
      try assumption; now apply pushRecent_NoDup. }
  destruct (reduce s a) as [s1 fetch]. now destruct fetch.
Qed.

Lemma recent_NoDup_reachable s actions :
  NoDup (recentQueries s) -> NoDup (recentQueries (fst (dispatchAll s actions))).
Proof.
  revert s. induction actions as [|a actions IH]; intros s Hs; simpl; [assumption|].
  pose proof (recent_NoDup_step s a Hs) as H1.
  destruct (dispatch s a) as [s1 r]. simpl in H1. specialize (IH s1 H1).
  now destruct (dispatchAll s1 actions).
Qed.

Lemma filter_other_id (q : string) (l : list string) :
  q ∉ l -> filter (fun x => x <> q) l = l.
Proof.
  induction l as [|x l IH]; intros Hq; [reflexivity|].
  apply not_elem_of_cons in Hq as [Hne Hq].
  rewrite filter_cons_True by congruence. now rewrite IH.
Qed.

Lemma filter_other_length (q : string) (l : list string) :
  NoDup l -> q ∈ l -> S (length (filter (fun x => x <> q) l)) = length l.
Proof.
  induction 1 as [|x l Hx Hl IH]; intros Hq; [inversion Hq|].
  destruct (decide (x = q)) as [-> | Hne].
  - rewrite filter_cons_False by (intros H; now apply H).
    now rewrite filter_other_id.
  - rewrite filter_cons_True by assumption. simpl. rewrite IH; [reflexivity|].
    apply elem_of_cons in Hq as [-> | Hq]; [contradiction | assumption].
Qed.

Lemma pushRecent_keeps cap q l x :
  (length l < cap)%nat -> x ∈ l -> x ∈ pushRecent cap q l.
Proof.
  intros Hlen Hx. unfold pushRecent. rewrite take_ge.
  - destruct (decide (x = q)) as [-> | Hne]; [apply elem_of_cons; auto|].
    apply elem_of_cons. right. apply list_elem_of_filter. auto.
  - simpl. pose proof (length_filter (fun y => y <> q) l). lia.
Qed.

(** C3: [SubmitQuery] sets [pageIndex] to 0 in every state and triggers one
    refetch. In every state reached by dispatching actions from the
    initial state it records the submitted text in the recent-queries
    list: the list stays within its cap, the submitted text is its first
    entry, no text occurs twice, the entries are the submitted text and
    older entries in their old order, and older entries are kept: a new
    text is put in front of the whole old list, cut at the cap; a text
    already listed moves to the front without changing the number of
    entries; and while the old list is shorter than the cap no entry is
    lost. *)
Theorem submit_resets_page_and_records_query (history : list Action) :
  let s := fst (dispatchAll initialState history) in
  let s' := fst (dispatch s SubmitQuery) in
  pageIndex s' = 0
  /\ is_Some (snd (dispatch s SubmitQuery))
  /\ (length (recentQueries s') <= maxRecentQueries)%nat
  /\ ((0 < maxRecentQueries)%nat -> head (recentQueries s') = Some (queryText s))
  /\ NoDup (recentQueries s')
  /\ recentQueries s' `sublist_of` queryText s :: recentQueries s
  /\ (forall s0, pageIndex (fst (dispatch s0 SubmitQuery)) = 0)
  /\ (queryText s ∉ recentQueries s ->
        recentQueries s' = take maxRecentQueries (queryText s :: recentQueries s))
  /\ (queryText s ∈ recentQueries s ->
        length (recentQueries s') = min maxRecentQueries (length (recentQueries s)))
  /\ ((length (recentQueries s) < maxRecentQueries)%nat ->
        forall x, x ∈ recentQueries s -> x ∈ recentQueries s').
Proof.
  intros s s'. subst s'. unfold Engine.dispatch. simpl.
  assert (Hnd : NoDup (recentQueries s)).
  { subst s. apply recent_NoDup_reachable. simpl. constructor. }
  split; [reflexivity|]. split; [eexists; reflexivity|].
  split; [apply pushRecent_length|].
  split; [apply pushRecent_head|].
  split; [now apply pushRecent_NoDup|].
  split; [apply pushRecent_sublist|].
  split; [reflexivity|].
  split; [|split].
  - intros Hq. unfold pushRecent. now rewrite filter_other_id.
  - intros Hq. unfold pushRecent. rewrite length_take. simpl.
    now rewrite (filter_other_length _ _ Hnd Hq).
  - intros Hlen x Hx. now apply pushRecent_keeps.
Qed.

End EngineFacts.

Lemma sequence_guard_witness :
  let s2 := fst (Engine.dispatchAll 5 Samples.correctedOnPage5
                   [Engine.ApplyCorrection; Engine.SetQueryText "tea";
                    Engine.SubmitQuery]) in
  let rA := Examples.responseTotal 3 None "late" in
  let rB := Examples.responseTotal 7 None "current" in
  let s3 := fst (Engine.dispatch 5 s2 (Engine.ResponseArrived 4 rB)) in
  let s4 := fst (Engine.dispatch 5 s3 (Engine.ResponseArrived 3 rA)) in
  Engine.pageIndex Samples.correctedOnPage5 = 5
  /\ Engine.lastResponse s3 = Some rB /\ s4 = s3.
Proof.
  split; [reflexivity|].
  exact (proj2 (proj2 (proj2 (proj2
           (sequence_guard 5 Samples.correctedOnPage5 _ _ Engine.ApplyCorrection
              Engine.SubmitQuery [Engine.SetQueryText "tea"] _ _ eq_refl eq_refl))))
           [] (Examples.responseTotal 3 None "late")
           (Examples.responseTotal 7 None "current") eq_refl).
Defined.

(** ** Pager *)

Section PagerFacts.
Import Engine UseSearchControllers.
Variable maxRecentQueries : nat.
Context {SearchEngine : Type}.
Variable pager : option (Controller SearchEngine Z).

Local Abbreviation perform := (Engine.perform maxRecentQueries).
Local Abbreviation performAll := (Engine.performAll maxRecentQueries).

Lemma clamp_next_at_last s :
  isLastPage s -> clampPage s (pageIndex s + 1) = pageIndex s.
Proof. unfold isLastPage, clampPage. lia. Qed.

Lemma clamp_previous_at_first s :
  pageIndex s = 0 -> clampPage s (pageIndex s - 1) = pageIndex s.
Proof. unfold clampPage. lia. Qed.

Lemma nextPage_at_last s : isLastPage s -> perform s nextPage = (s, []).
Proof.
  intros H. unfold Engine.perform. simpl.
  rewrite (clamp_next_at_last s H), Z.eqb_refl. reflexivity.
Qed.

Lemma previousPage_at_first s : pageIndex s = 0 -> perform s previousPage = (s, []).
Proof.
  intros H. unfold Engine.perform. simpl.
  rewrite (clamp_previous_at_first s H), Z.eqb_refl. reflexivity.
Qed.

Lemma performAll_nil s : performAll s [] = (s, []).
Proof. reflexivity. Qed.

Lemma performAll_one s c : performAll s [c] = perform s c.
Proof.
  simpl. destruct (perform s c) as [s1 rs]. now rewrite app_nil_r.
Qed.

(** C5: on the last page [nextPage()] leaves canonical state as it is and
    issues no request, and the projection reports no next page, so the
    handler of the component, whatever its refs hold, changes nothing and
    triggers no request; likewise [previousPage()] and its handler on the
    first page. *)
Theorem pager_noop_at_bounds (s : CanonicalState) (numberOfPages : Z) (r : Pager.Refs) :
  (isLastPage s ->
     perform s nextPage = (s, [])
     /\ hasNextPage (pagerState numberOfPages s) = false
     /\ performAll s (snd (Pager.goToNext pager r)) = (s, [])
     /\ snd (Pager.goToNext pager
               (Pager.onStateChange (pagerState numberOfPages s) r)) = [])
  /\ (pageIndex s = 0 ->
        perform s previousPage = (s, [])
        /\ hasPreviousPage (pagerState numberOfPages s) = false
        /\ performAll s (snd (Pager.goToPrevious pager r)) = (s, [])
        /\ snd (Pager.goToPrevious pager
                  (Pager.onStateChange (pagerState numberOfPages s) r)) = []).
Proof.
  split.
  - intros H.
    assert (Hn : hasNextPage (pagerState numberOfPages s) = false).
    { simpl. unfold isLastPage in H. apply Z.ltb_ge. lia. }
    split; [now apply nextPage_at_last|]. split; [exact Hn|]. split.
    + unfold Pager.goToNext. destruct pager; [|reflexivity].
      destruct (Pager.hasNextPage r); [|reflexivity].
      simpl snd. rewrite performAll_one. now apply nextPage_at_last.
    + unfold Pager.goToNext. destruct pager; [|reflexivity].
      simpl Pager.hasNextPage. simpl in Hn. now rewrite Hn.
  - intros H.
    assert (Hp : hasPreviousPage (pagerState numberOfPages s) = false).
    { simpl. apply Z.ltb_ge. lia. }
    split; [now apply previousPage_at_first|]. split; [exact Hp|]. split.
    + unfold Pager.goToPrevious. destruct pager; [|reflexivity].
      destruct (Pager.hasPreviousPage r); [|reflexivity].
      simpl snd. rewrite performAll_one. now apply previousPage_at_first.
    + unfold Pager.goToPrevious. destruct pager; [|reflexivity].
      simpl Pager.hasPreviousPage. simpl in Hp. now rewrite Hp.
Qed.

End PagerFacts.

Lemma pager_noop_at_bounds_witness :
  let s := Examples.answered 7 None in
  Engine.perform 5 s Engine.nextPage = (s, [])
  /\ Engine.perform 5 s Engine.previousPage = (s, []).
Proof.
  destruct (pager_noop_at_bounds 5 (Examples.pagerOf tt) (Examples.answered 7 None)
              5 Pager.setup) as [Hnext Hprev].
  split.
  - apply Hnext. reflexivity.
  - apply Hprev. reflexivity.
Defined.

(** ** Did you mean *)

Section DidYouMeanFacts.
Import Engine UseSearchControllers.
Variable maxRecentQueries : nat.
Context {SearchEngine : Type}.

Local Abbreviation perform := (Engine.perform maxRecentQueries).
Local Abbreviation performAll := (Engine.performAll maxRecentQueries).

Lemma applyCorrection_pending s c :
  correctionOf s = Some c ->
  perform s applyCorrection
  = (fst (refetch (with_queryText (correctedQuery c) s)),
     [snapshot (S (requestSequence s)) (with_queryText (correctedQuery c) s)]).
Proof.
  intros H. unfold Engine.perform. simpl. unfold Engine.dispatch. simpl.
  rewrite H. reflexivity.
Qed.

Lemma applyCorrection_none s :
  correctionOf s = None -> perform s applyCorrection = (s, []).
Proof.
  intros H. unfold Engine.perform. simpl. unfold Engine.dispatch. simpl.
  rewrite H. reflexivity.
Qed.

(** C7: with a correction in the last response, the handler calls
    [applyCorrection()], after which the canonical query text is the
    corrected text and exactly one request, carrying that text and the next
    sequence number, is pending; without a correction, or without a
    controller, the handler changes nothing and requests nothing, however
    often it runs. *)
Theorem apply_correction (s : CanonicalState) (r : DidYouMean.Refs)
    (didYouMean : Controller SearchEngine unit) :
  (forall c, correctionOf s = Some c ->
     exists s' request,
       performAll s (snd (DidYouMean.applyCorrection (Some didYouMean) r))
       = (s', [request])
       /\ queryText s' = correctedQuery c
       /\ req_queryText request = correctedQuery c
       /\ req_sequence request = S (requestSequence s)
       /\ requestSequence s' = S (requestSequence s)
       /\ pendingRequestId s' = Some (S (requestSequence s)))
  /\ (correctionOf s = None ->
        forall (controller : option (Controller SearchEngine unit)),
          DidYouMean.applyCorrection controller r
          = (r, match controller with
                | Some _ => [applyCorrection]
                | None => []
                end)
          /\ performAll s (snd (DidYouMean.applyCorrection controller r)) = (s, [])
          /\ performAll s (snd (DidYouMean.applyCorrection controller r)
                           ++ snd (DidYouMean.applyCorrection controller r))
             = (s, []))
  /\ DidYouMean.applyCorrection (SearchEngine := SearchEngine) None r = (r, []).
Proof.
  split; [|split; [|reflexivity]].
  - intros c Hc. do 2 eexists. split.
    + simpl. rewrite (applyCorrection_pending s c Hc). reflexivity.
    + simpl. auto.
  - intros Hc [ctl|]; simpl.
    + rewrite (applyCorrection_none s Hc). simpl.
      rewrite (applyCorrection_none s Hc). auto.
    + auto.
Qed.

(** C8: the handler for searching with the original query has an empty
    body: it leaves the refs of the component as they are and calls no
    controller method, so canonical state is unchanged and no request is
    issued. *)
Theorem searchOriginal_is_a_stub (s : CanonicalState) (r : DidYouMean.Refs)
    (didYouMean : option (Controller SearchEngine unit)) :
  DidYouMean.searchOriginal didYouMean r = (r, [])
  /\ performAll s (snd (DidYouMean.searchOriginal didYouMean r)) = (s, []).
Proof. destruct didYouMean; split; reflexivity. Qed.

End DidYouMeanFacts.

Lemma apply_correction_witness :
  let s := Examples.answered 0 (Some Examples.coffee) in
  exists s' request,
    Engine.perform 5 s Engine.applyCorrection = (s', [request])
    /\ Engine.queryText s' = "coffee"
    /\ Engine.req_sequence request = 2%nat.
Proof.
  destruct (apply_correction 5 (Examples.answered 0 (Some Examples.coffee))
              DidYouMean.setup
              {| UseSearchControllers.ctl_engine := tt;
                 UseSearchControllers.ctl_options := tt |}) as [H _].
  destruct (H Examples.coffee eq_refl) as (s' & request & Hrun & Hq & _ & Hseq & _).
  exists s', request. split; [|split].
  - rewrite <- Hrun. reflexivity.
  - exact Hq.
  - exact Hseq.
Defined.

(** ** Result items *)

Section ResultFacts.
Import Engine.
Variable toLocaleDateString : Z -> string.

(** C10: a result without a numeric date field, or with date 0, has no
    formatted date; any other date value [d] is formatted as the time [d]
    milliseconds when [d > 10^12] and as [d * 1000] milliseconds
    otherwise. *)
Theorem formattedDate_unit_by_magnitude (result : Result) :
  (ResultItem.dateValue result = None \/ ResultItem.dateValue result = Some 0 ->
     ResultItem.formattedDate toLocaleDateString result = None)
  /\ (forall d, ResultItem.dateValue result = Some d -> d <> 0 ->
        (10 ^ 12 < d ->
           ResultItem.formattedDate toLocaleDateString result
           = Some (toLocaleDateString d))
        /\ (d <= 10 ^ 12 ->
              ResultItem.formattedDate toLocaleDateString result
              = Some (toLocaleDateString (d * 1000)))).
Proof.
  unfold ResultItem.formattedDate, ResultItem.dateMillis. split.
  - intros [-> | ->]; reflexivity.
  - intros d -> Hd.
    destruct (Z.eqb_spec d 0) as [|_]; [contradiction|].
    split; intros H.
    + apply Z.ltb_lt in H. now rewrite H.
    + apply Z.ltb_ge in H. now rewrite H.
Qed.

End ResultFacts.

Lemma formattedDate_unit_by_magnitude_witness :
  ResultItem.formattedDate (fun ms => if ms =? 1700000000000 then "Nov 14, 2023" else "?")
    Examples.result1
  = Some "Nov 14, 2023".
Proof.
  destruct (formattedDate_unit_by_magnitude
              (fun ms => if ms =? 1700000000000 then "Nov 14, 2023" else "?")
              Examples.result1) as [_ H].
  destruct (H 1700000000 eq_refl ltac:(discriminate)) as [_ Hsec].
  rewrite Hsec; [reflexivity | discriminate].
Defined.

Section ClickFacts.
Import Engine.
Context {SearchEngine : Type}.

Lemma card_click_logged (e : SearchEngine) (s : CanonicalState) (result : Result) :
  exists console,
    ResultList.onResultClick (Some e) ResultItem.Card result
    = ([logDocumentOpen result], console, [])
    /\ analyticsOf s (logDocumentOpen result)
       = [ClickEvent (uniqueId result) (rank result) (queryText s)].
Proof. eexists. split; reflexivity. Qed.

(** C6, where the code departs from it: a click on the title link of a
    result opens the document in a new tab and dispatches nothing to the
    engine, so no Click event is logged for it. *)
Theorem title_link_click_not_logged (engine : option SearchEngine) (result : Result) :
  ResultList.onResultClick engine ResultItem.TitleLink result
  = ([], [], [ResultItem.open_new_tab (clickUri result)])
  /\ forall s,
       concat (map (analyticsOf s)
                 (fst (fst (ResultList.onResultClick engine ResultItem.TitleLink result))))
       = [].
Proof. split; reflexivity. Qed.

End ClickFacts.

(** ** Components and the controller state they show *)

Section SubscriptionFacts.
Import Engine Subscription.
Context {Proj Refs : Type}.
Variable maxRecentQueries : nat.
Variable immediate : bool.
Variable project : CanonicalState -> Proj.
Variable onStateChange : Proj -> Refs -> Refs.
(** Running the callback twice on the same controller state writes
    nothing new. *)
Hypothesis callback_idempotent :
  forall p r, onStateChange p (onStateChange p r) = onStateChange p r.

Local Abbreviation step := (Subscription.step maxRecentQueries immediate project onStateChange).
Local Abbreviation run := (Subscription.run maxRecentQueries immediate project onStateChange).
Local Abbreviation synced := (Subscription.synced project onStateChange).
Local Abbreviation notify := (Subscription.notify project onStateChange).

Lemma notify_synced w : stage w = Mounted -> synced (notify w) /\ stage (notify w) = Mounted.
Proof.
  intros H. unfold Subscription.notify, Subscription.synced. rewrite H. simpl.
  now rewrite callback_idempotent.
Qed.




Lemma mount_immediate_synced w :
  immediate = true -> stage w = Created -> synced (step w Mount).
Proof.
  intros Hi Hc. simpl. rewrite Hc, Hi. now apply notify_synced.
Qed.

Lemma step_not_mounted w e :
  stage w <> Mounted -> e <> Mount ->
  refs (step w e) = refs w /\ stage (step w e) <> Mounted.
Proof.
  intros Hs He. destruct w as [s r st]. simpl in Hs.
  destruct e as [a| |]; [| contradiction |]; simpl.
  - case_decide; [auto|]. unfold Subscription.notify. simpl.
    destruct st; simpl; try (exfalso; apply Hs; reflexivity);
      split; (reflexivity || discriminate).
  - destruct st; simpl; try (exfalso; apply Hs; reflexivity);
      split; (reflexivity || discriminate).
Qed.

Lemma unmounted_frozen w events :
  stage w <> Mounted -> Forall (fun e => e <> Mount) events ->
  refs (run w events) = refs w.
Proof.
  revert w. induction events as [|e events IH]; intros w Hs Hev; [reflexivity|].
  inversion Hev as [|? ? He Hev']; subst.
  destruct (step_not_mounted w e Hs He) as [Hr Hs'].
  unfold Subscription.run. simpl.
  change (fold_left _ events ?w0) with (run w0 events).
  rewrite (IH _ Hs' Hev'). exact Hr.
Qed.

End SubscriptionFacts.

Section ComponentFacts.
Import Engine Subscription.
Variable maxRecentQueries : nat.
Variable immediate : bool.
Variable numberOfPages : Z.
Variable facetState : CanonicalState -> Facet.FacetState.

Local Abbreviation pagerStep :=
  (Subscription.step maxRecentQueries immediate (pagerState numberOfPages)
     Pager.onStateChange).
Local Abbreviation pagerRun :=
  (Subscription.run maxRecentQueries immediate (pagerState numberOfPages)
     Pager.onStateChange).
Local Abbreviation facetStep :=
  (Subscription.step maxRecentQueries immediate facetState Facet.onStateChange).
Local Abbreviation facetRun :=
  (Subscription.run maxRecentQueries immediate facetState Facet.onStateChange).

Local Abbreviation pager_shows :=
  (fun s r => Pager.shows (pagerState numberOfPages s) r).
Local Abbreviation facet_shows :=
  (fun s r => Facet.shows (facetState s) r).

Lemma pager_synced_shows (w : World Pager.Refs) :
  Subscription.synced (pagerState numberOfPages) Pager.onStateChange w
  <-> pager_shows (canonical w) (refs w).
Proof.
  unfold Subscription.synced, Pager.shows. destruct (refs w) as [c p n v m]. simpl.
  split.
  - intros [= -> -> -> -> ->]. repeat split.
  - intros (-> & -> & -> & -> & ->). reflexivity.
Qed.

Lemma facet_synced_shows (w : World Facet.Refs) :
  Subscription.synced facetState Facet.onStateChange w
  <-> facet_shows (canonical w) (refs w).
Proof.
  unfold Subscription.synced, Facet.shows. destruct (refs w) as [v e m l]. simpl.
  split.
  - intros [= -> -> ->]. repeat split.
  - intros (-> & -> & ->). reflexivity.
Qed.

End ComponentFacts.

Section LifecycleFacts.
Import Engine Subscription.
Context {Proj Refs : Type}.
Variable maxRecentQueries : nat.
Variable immediate : bool.
Variable project : CanonicalState -> Proj.
Variable onStateChange : Proj -> Refs -> Refs.

Local Abbreviation step := (Subscription.step maxRecentQueries immediate project onStateChange).
Local Abbreviation run := (Subscription.run maxRecentQueries immediate project onStateChange).







End LifecycleFacts.

Section FollowsFacts.
Import Engine Subscription.
Context {Proj Refs : Type}.
Variable onStateChange : Proj -> Refs -> Refs.
Variable shows : Proj -> Refs -> Prop.
Hypothesis callback_idempotent :
  forall p r, onStateChange p (onStateChange p r) = onStateChange p r.
Hypothesis shows_spec : forall p r, shows p r <-> r = onStateChange p r.


End FollowsFacts.











Lemma submit_resets_page_and_records_query_witness :
  let s := fst (Engine.dispatchAll 5 Engine.initialState Samples.typedOnPage3) in
  let s' := fst (Engine.dispatch 5 s Engine.SubmitQuery) in
  Engine.pageIndex s = 3
  /\ Engine.pageIndex s' = 0
  /\ head (Engine.recentQueries s') = Some "cofee"
  /\ "tea" ∈ Engine.recentQueries s'.
Proof.
  destruct (submit_resets_page_and_records_query 5 Samples.typedOnPage3)
    as (Hpage & _ & _ & Hhead & _ & _ & _ & _ & _ & Hkept).
  split; [reflexivity|]. split; [exact Hpage|].
  split; [apply Hhead; lia|].
  apply Hkept; [simpl; lia | apply elem_of_cons; left; reflexivity].
Defined.

(** * Further properties of the sources *)

(** ** [useCoveoEngine] and the page that starts the first search *)

Section UseCoveoEngineMore.
Import JS UseCoveoEngine.
Context {SearchEngine : Type}.
Variable buildSearchEngine : SearchEngineConfiguration -> SearchEngine + string.

Local Abbreviation calls := (useCoveoEngine_calls buildSearchEngine).

(** X1: during server rendering the client check comes first: every call
    yields a null engine that is not ready and leaves the module state
    untouched, even when an instance is stored and whatever the
    credentials are; nothing is built and nothing is logged. *)
Theorem server_calls_do_nothing (env : Env) (options : list CoveoEngineOptions)
    (st : ModuleState SearchEngine) :
  isClient env = false ->
  calls env options st
  = (map (fun _ => {| engine := None; isReady := false |}) options, st).
Proof.
  intros Hs. induction options as [|o options IH]; simpl; [reflexivity|].
  unfold useCoveoEngine at 1. rewrite initEngine_server by assumption.
  now rewrite IH.
Qed.

Lemma initEngine_builds (env : Env) (o : CoveoEngineOptions)
    (st : ModuleState SearchEngine) :
  isClient env = true ->
  credentialsMissing (config env) = false ->
  engineInstance st = None ->
  initEngine buildSearchEngine env o st
  = match buildSearchEngine
            (engineConfig env o
               (default EmptyString (coveoOrganizationId (config env)))
               (default EmptyString (coveoApiKey (config env)))) with
    | inl e => (Some e, {| engineInstance := Some e; console := console st |})
    | inr error => (None, say (console_error initFailure error) st)
    end.
Proof.
  intros Hc Hm Hn. unfold initEngine, credentialsMissing in *.
  now rewrite Hc, Hn, Hm.
Qed.

(** X2: a failed build is not remembered. On the client, with credentials
    present and no instance stored, a call whose build throws yields null
    and logs the error once; the next call builds again with its own
    options, and when that build succeeds its engine is returned and
    stored. *)
Theorem failed_build_is_retried (env : Env) (o1 o2 : CoveoEngineOptions)
    (st : ModuleState SearchEngine) (error : string) (e : SearchEngine) :
  isClient env = true ->
  credentialsMissing (config env) = false ->
  engineInstance st = None ->
  buildSearchEngine
    (engineConfig env o1 (default EmptyString (coveoOrganizationId (config env)))
       (default EmptyString (coveoApiKey (config env)))) = inr error ->
  buildSearchEngine
    (engineConfig env o2 (default EmptyString (coveoOrganizationId (config env)))
       (default EmptyString (coveoApiKey (config env)))) = inl e ->
  calls env [o1; o2] st
  = ([ {| engine := None; isReady := false |};
       {| engine := Some e; isReady := true |} ],
     {| engineInstance := Some e;
        console := console st ++ [console_error initFailure error] |}).
Proof.
  intros Hc Hm Hn H1 H2. simpl. unfold useCoveoEngine.
  rewrite (initEngine_builds env o1 st Hc Hm Hn), H1.
  rewrite (initEngine_builds env o2 (say (console_error initFailure error) st)
             Hc Hm Hn), H2.
  reflexivity.
Qed.

(** X3: an engine is only ever built from a complete configuration. When a
    call with no instance stored returns an engine, [buildSearchEngine] was
    given the organization id and the API key of the runtime configuration,
    both non-empty, analytics enabled, the pipeline of the options, and a
    non-empty search hub that is also the analytics origin level 2: the
    hub of the options when that is a non-empty string, [NuxtDemo]
    otherwise. *)
Theorem engine_built_from_complete_configuration (env : Env)
    (options : CoveoEngineOptions) (st st1 : ModuleState SearchEngine)
    (e : SearchEngine) :
  engineInstance st = None ->
  initEngine buildSearchEngine env options st = (Some e, st1) ->
  exists cfg,
    buildSearchEngine cfg = inl e
    /\ Some (organizationId cfg) = coveoOrganizationId (config env)
    /\ Some (accessToken cfg) = coveoApiKey (config env)
    /\ organizationId cfg <> EmptyString
    /\ accessToken cfg <> EmptyString
    /\ enabled (analytics cfg) = true
    /\ search_pipeline (search cfg) = pipeline options
    /\ search_searchHub (search cfg) <> EmptyString
    /\ originLevel2 (analytics cfg) = search_searchHub (search cfg)
    /\ search_searchHub (search cfg)
       = (if truthy (searchHub options)
          then default EmptyString (searchHub options)
          else "NuxtDemo").
Proof.
  intros Hn. unfold initEngine. rewrite Hn.
  destruct (isClient env); simpl; [|discriminate].
  destruct (coveoOrganizationId (config env)) as [[|c1 org]|]; simpl; try discriminate.
  destruct (coveoApiKey (config env)) as [[|c2 key]|]; simpl; try discriminate.
  destruct (buildSearchEngine _) as [e'|err] eqn:Hb; [|discriminate].
  intros [= -> <-]. eexists. split; [exact Hb|]. simpl.
  repeat (split; [first [reflexivity | discriminate]|]).
  split; [destruct (searchHub options) as [[|]|]; discriminate|].
  split; [reflexivity|].
  destruct (searchHub options) as [[|]|]; reflexivity.
Qed.

Lemma useCoveoEngine_step (env : Env) (o : CoveoEngineOptions)
    (st : ModuleState SearchEngine) :
  let '(c, st') := useCoveoEngine buildSearchEngine env o st in
  (exists entries, console st' = console st ++ entries /\ (length entries <= 1)%nat)
  /\ (forall e, engineInstance st = Some e -> engineInstance st' = Some e)
  /\ (forall e, engine c = Some e -> engineInstance st' = Some e)
  /\ isReady c = bool_decide (is_Some (engine c)).
Proof.
  unfold useCoveoEngine, initEngine.
  destruct (isClient env); simpl.
  - destruct (engineInstance st) as [e0|] eqn:He; simpl.
    + split; [exists []; rewrite app_nil_r; auto|]. rewrite He. auto.
    + destruct (_ || _); simpl.
      * split; [eexists; split; [reflexivity | simpl; lia]|].
        rewrite He. repeat split; intros; discriminate.
      * destruct (buildSearchEngine _) as [e1|err]; simpl.
        -- split; [exists []; rewrite app_nil_r; auto|].
           repeat split; (discriminate || auto).
        -- split; [eexists; split; [reflexivity | simpl; lia]|].
           rewrite He. repeat split; intros; discriminate.
  - split; [exists []; rewrite app_nil_r; auto|].
    repeat split; (discriminate || auto).
Qed.

(** X4: whatever the environment, the options and the outcome of each
    build, a run of calls only appends to the console, at most one entry
    per call; an instance once stored is never replaced or dropped; and
    every engine a call hands out is the instance stored at the end, so all
    components of a session share one engine. *)
Theorem calls_share_one_engine (env : Env) (options : list CoveoEngineOptions)
    (st : ModuleState SearchEngine) :
  let '(cs, st') := calls env options st in
  length cs = length options
  /\ (exists entries,
        console st' = console st ++ entries
        /\ (length entries <= length options)%nat)
  /\ (forall e, engineInstance st = Some e -> engineInstance st' = Some e)
  /\ (forall c e, c ∈ cs -> engine c = Some e -> engineInstance st' = Some e).
Proof.
  revert st. induction options as [|o options IH]; intros st; simpl.
  - split; [reflexivity|]. split; [exists []; rewrite app_nil_r; auto|].
    split; [auto|]. intros c e Hc. inversion Hc.
  - pose proof (useCoveoEngine_step env o st) as Hstep.
    destruct (useCoveoEngine buildSearchEngine env o st) as [c st1].
    specialize (IH st1).
    destruct (calls env options st1) as [cs st2].
    destruct Hstep as ((en1 & Hcon1 & Hlen1) & Hkeep1 & Hout1 & _).
    destruct IH as (Hlen & (en2 & Hcon2 & Hlen2) & Hkeep2 & Hout2).
    split; [simpl; now rewrite Hlen|].
    split.
    { exists (en1 ++ en2). rewrite Hcon2, Hcon1, <- app_assoc.
      split; [reflexivity|]. rewrite length_app. lia. }
    split; [auto|].
    intros c' e Hin He. apply elem_of_cons in Hin as [-> | Hin]; eauto.
Qed.

(** X5: the mounted hook of the page starts the first search on the client
    only, exactly when the call of [useCoveoEngine] produced an engine, and
    then once, on the instance that is stored; with no engine it starts
    nothing. *)
Theorem first_search_started_iff_ready (env : Env) (options : CoveoEngineOptions)
    (st : ModuleState SearchEngine) :
  let '(c, st') := useCoveoEngine buildSearchEngine env options st in
  (isClient env = false -> IndexPage.onMounted c = [])
  /\ (forall e, engine c = Some e ->
        IndexPage.onMounted c = [e] /\ engineInstance st' = Some e
        /\ isClient env = true)
  /\ (engine c = None -> IndexPage.onMounted c = [])
  /\ (credentialsMissing (config env) = true -> engineInstance st = None ->
        IndexPage.onMounted c = []).
Proof.
  pose proof (useCoveoEngine_step env options st) as Hstep.
  assert (Hclient : isClient env = false ->
            fst (useCoveoEngine buildSearchEngine env options st)
            = {| engine := None; isReady := false |}).
  { intros Hs. unfold useCoveoEngine. now rewrite initEngine_server. }
  assert (Hmiss : isClient env = true -> credentialsMissing (config env) = true ->
            engineInstance st = None ->
            fst (useCoveoEngine buildSearchEngine env options st)
            = {| engine := None; isReady := false |}).
  { intros Hc Hm Hn. unfold useCoveoEngine. now rewrite initEngine_missing. }
  destruct (useCoveoEngine buildSearchEngine env options st) as [c st'].
  destruct Hstep as (_ & _ & Hout & Hready). simpl in Hclient, Hmiss.
  unfold IndexPage.onMounted, executeFirstSearch. rewrite Hready.
  split; [intros Hs; now rewrite (Hclient Hs)|].
  split.
  { intros e He. rewrite He. simpl. split; [reflexivity|].
    split; [auto|]. destruct (isClient env); [reflexivity|].
    rewrite (Hclient eq_refl) in He. discriminate. }
  split; [intros ->; reflexivity|].
  intros Hm Hn. destruct (isClient env).
  - now rewrite (Hmiss eq_refl Hm Hn).
  - now rewrite (Hclient eq_refl).
Qed.

End UseCoveoEngineMore.

Lemma server_calls_do_nothing_witness :
  UseCoveoEngine.useCoveoEngine_calls Examples.configOnly Samples.configuredServer
    [Examples.noOptions; Examples.docsHub] Samples.stored
  = ([ {| UseCoveoEngine.engine := None; UseCoveoEngine.isReady := false |};
       {| UseCoveoEngine.engine := None; UseCoveoEngine.isReady := false |} ],
     Samples.stored).
Proof.
  exact (server_calls_do_nothing Examples.configOnly Samples.configuredServer
           [Examples.noOptions; Examples.docsHub] Samples.stored eq_refl).
Defined.

Lemma failed_build_is_retried_witness :
  exists e,
    UseCoveoEngine.useCoveoEngine_calls Samples.needsPipeline Examples.configured
      [Examples.noOptions; Examples.docsHub] UseCoveoEngine.initialModule
    = ([ {| UseCoveoEngine.engine := None; UseCoveoEngine.isReady := false |};
         {| UseCoveoEngine.engine := Some e; UseCoveoEngine.isReady := true |} ],
       {| UseCoveoEngine.engineInstance := Some e;
          UseCoveoEngine.console :=
            [JS.console_error UseCoveoEngine.initFailure "pipeline is required"] |})
    /\ UseCoveoEngine.search_searchHub (UseCoveoEngine.search e) = "Docs".
Proof.
  eexists. split.
  - exact (failed_build_is_retried Samples.needsPipeline Examples.configured
             Examples.noOptions Examples.docsHub UseCoveoEngine.initialModule
             "pipeline is required" _ eq_refl eq_refl eq_refl eq_refl eq_refl).
  - reflexivity.
Defined.

Lemma engine_built_from_complete_configuration_witness :
  exists cfg,
    UseCoveoEngine.organizationId cfg = "acmeorg"
    /\ UseCoveoEngine.search_searchHub (UseCoveoEngine.search cfg) = "NuxtDemo".
Proof.
  destruct (engine_built_from_complete_configuration Examples.configOnly
              Examples.configured Examples.noOptions UseCoveoEngine.initialModule
              _ _ eq_refl eq_refl)
    as (cfg & _ & Horg & _ & _ & _ & _ & _ & _ & _ & Hhub).
  exists cfg. split; [now injection Horg | exact Hhub].
Defined.

(** ** Controller factories and the handlers without an engine *)

Section ControllerFacts.
Import UseSearchControllers.
Context {SearchEngine : Type}.

(** X6: each of the seven factories returns null exactly when the engine
    is null and otherwise a controller bound to that very engine. The
    pager shows 5 pages and the search box asks for 5 suggestions when no
    number is given; a facet takes its id from its field, asks for 8
    values, ignores its label, and facets of different fields differ. *)
Theorem factories_follow_the_engine (engine : option SearchEngine)
    (n pages : option Z) (h : option (string * string)) (f : string)
    (label : option string) :
  ctl_engine <$> createSearchBox engine n h = engine
  /\ ctl_engine <$> createResultList engine = engine
  /\ ctl_engine <$> createFacet engine f label = engine
  /\ ctl_engine <$> createPager engine pages = engine
  /\ ctl_engine <$> createSort engine = engine
  /\ ctl_engine <$> createQuerySummary engine = engine
  /\ ctl_engine <$> createDidYouMean engine = engine
  /\ createPager engine None = createPager engine (Some 5)
  /\ createSearchBox engine None h = createSearchBox engine (Some 5) h
  /\ createFacet engine f label = createFacet engine f None
  /\ (forall (e : SearchEngine) f' label',
        createFacet (Some e) f label = createFacet (Some e) f' label' -> f = f')
  /\ (forall c, createFacet engine f label = Some c ->
        facetId (ctl_options c) = f /\ field (ctl_options c) = f
        /\ numberOfValues (ctl_options c) = 8).
Proof.
  repeat (split; [destruct engine; reflexivity|]).
  split.
  - intros e f' label' H. unfold createFacet, build in H. now injection H.
  - intros c. destruct engine; [|discriminate].
    intros [= <-]. repeat split.
Qed.

(** X7: without an engine nothing in the interface reaches headless. With
    the controllers the factories return for a null engine, every handler
    that goes through a controller or the engine (the three of the pager,
    the three of the facet, both correction buttons, [onInput], [onSubmit]
    and [selectSuggestion] of the search box, [onSortChange], the clicks
    on results, [logCustomEvent]) leaves the refs as they are, calls no
    controller method and writes nothing to the console. The handlers of
    the search box that use no controller still write their refs: the
    arrow keys move the highlight, the blur timer hides the dropdown and
    clears the highlight, the focus handler shows the dropdown. *)
Theorem handlers_inert_without_engine :
  let engine : option SearchEngine := None in
  (forall r page,
     Pager.goToPage (createPager engine (Some 5)) page r = (r, [])
     /\ Pager.goToNext (createPager engine (Some 5)) r = (r, [])
     /\ Pager.goToPrevious (createPager engine (Some 5)) r = (r, []))
  /\ (forall r f label v,
        Facet.toggleValue (createFacet engine f label) v r = (r, [])
        /\ Facet.clearSelections (createFacet engine f label) r = (r, [])
        /\ Facet.toggleShowMore (createFacet engine f label) r = (r, []))
  /\ (forall r b,
        DidYouMeanTemplate.click (createDidYouMean engine) b r = (r, []))
  /\ (forall r sg,
        SearchBox.onInput (createSearchBox engine (Some 5) None) r = (r, [])
        /\ SearchBox.onSubmit (createSearchBox engine (Some 5) None) r = (r, [])
        /\ SearchBox.selectSuggestion (createSearchBox engine (Some 5) None) sg r
           = (r, []))
  /\ (forall r, SortDropdown.onSortChange (createSort engine) r = (r, []))
  /\ (forall clicks,
        fst (ResultClicks.clickAll engine clicks) = ([], []))
  /\ (forall t v m, UseCoveoAnalytics.logCustomEvent engine t v m = ([], []))
  /\ (forall r,
        (SearchBox.selectedIndex r = -1 ->
           SearchBox.selectedIndex (SearchBox.navigateSuggestion 1 r) = 0)
        /\ SearchBox.showSuggestions (SearchBox.onBlur r) = false
        /\ SearchBox.selectedIndex (SearchBox.onBlur r) = -1
        /\ SearchBox.showSuggestions (SearchBoxKeys.onFocus r) = true).
Proof.
  simpl.
  split; [intros; repeat split|].
  split; [intros; repeat split|].
  split; [intros r b; destruct b; reflexivity|].
  split; [intros; repeat split|].
  split; [reflexivity|].
  split; [|split; [reflexivity|]].
  - induction clicks as [|[t res] clicks IH]; [reflexivity|].
    simpl. destruct (ResultClicks.clickAll None clicks) as [[cs con] nav].
    simpl in IH. injection IH as -> ->. destruct t; reflexivity.
  - intros r. split; [|repeat split].
    intros Hi. unfold SearchBox.navigateSuggestion. simpl. rewrite Hi.
    change (-1 + 1) with 0. simpl.
    destruct (Z.of_nat (length (SearchBox.suggestions r)) - 1 <? 0); reflexivity.
Qed.

End ControllerFacts.

(** ** The search box *)

Section SearchBoxFacts.
Import SearchBox.
Context {SearchEngine : Type}.
Variable controller :
  UseSearchControllers.Controller SearchEngine UseSearchControllers.SearchBoxOptions.

Local Abbreviation searchBox := (Some controller).

Lemma at_index_spec {A : Type} (l : list A) (i : Z) (x : A) :
  at_index l i = Some x <-> 0 <= i /\ l !! Z.to_nat i = Some x.
Proof.
  unfold at_index. destruct (Z.ltb_spec i 0); split.
  - discriminate.
  - intros [? _]. lia.
  - auto.
  - tauto.
Qed.

Lemma at_index_out {A : Type} (l : list A) (i : Z) :
  i < 0 \/ Z.of_nat (length l) <= i -> at_index l i = None.
Proof.
  intros H. unfold at_index. destruct (Z.ltb_spec i 0); [reflexivity|].
  apply lookup_ge_None. lia.
Qed.

(** X8: with suggestions shown and the highlight on none or on one of
    them, the arrow keys keep the highlight on a suggestion: down moves to
    the next one and from the last to the first, up moves to the previous
    one and from the first (or from none) to the last, and down followed by
    up, or up followed by down, restores the refs. *)
Theorem arrows_cycle_through_suggestions (r : Refs) :
  let n := Z.of_nat (length (suggestions r)) in
  0 < n ->
  -1 <= selectedIndex r < n ->
  0 <= selectedIndex (navigateSuggestion 1 r) < n
  /\ 0 <= selectedIndex (navigateSuggestion (-1) r) < n
  /\ (selectedIndex r < n - 1 ->
        selectedIndex (navigateSuggestion 1 r) = selectedIndex r + 1)
  /\ (selectedIndex r = n - 1 -> selectedIndex (navigateSuggestion 1 r) = 0)
  /\ (0 < selectedIndex r ->
        selectedIndex (navigateSuggestion (-1) r) = selectedIndex r - 1)
  /\ (selectedIndex r <= 0 -> selectedIndex (navigateSuggestion (-1) r) = n - 1)
  /\ (0 <= selectedIndex r ->
        navigateSuggestion (-1) (navigateSuggestion 1 r) = r
        /\ navigateSuggestion 1 (navigateSuggestion (-1) r) = r).
Proof.
  destruct r as [q sgs shown i]. simpl. intros Hn Hi.
  unfold navigateSuggestion. simpl.
  repeat match goal with
         | |- context [?a <? ?b] => destruct (Z.ltb_spec a b)
         end; try lia;
    repeat split; intros; try lia; f_equal; lia.
Qed.

(** X9: Enter in the search box makes exactly one controller call and
    closes the dropdown. When the highlight is on a suggestion, that
    suggestion is selected and its text becomes the text of the input;
    when the highlight is on none, or beyond the suggestions now shown, the
    typed text is submitted and the input keeps it. The highlight itself
    is left where it was. *)
Theorem enter_selects_or_submits (r : Refs) :
  let '(r', calls) := onSubmit searchBox r in
  showSuggestions r' = false
  /\ suggestions r' = suggestions r
  /\ selectedIndex r' = selectedIndex r
  /\ length calls = 1%nat
  /\ (forall sg,
        0 <= selectedIndex r ->
        suggestions r !! Z.to_nat (selectedIndex r) = Some sg ->
        calls = [Engine.selectSuggestion (rawValue sg)] /\ query r' = rawValue sg)
  /\ (selectedIndex r < 0 \/ Z.of_nat (length (suggestions r)) <= selectedIndex r ->
        calls = [Engine.submit] /\ query r' = query r).
Proof.
  unfold onSubmit.
  destruct (at_index (suggestions r) (selectedIndex r)) as [sg|] eqn:Hat.
  - apply at_index_spec in Hat as [Hpos Hlook].
    destruct (Z.leb_spec 0 (selectedIndex r)); [|lia]. simpl.
    repeat (split; [reflexivity|]). split.
    + intros sg' _ Hsg'. rewrite Hlook in Hsg'. injection Hsg' as <-. auto.
    + intros Hout. apply (at_index_out (suggestions r)) in Hout.
      unfold at_index in Hout. destruct (Z.ltb_spec (selectedIndex r) 0); [lia|].
      congruence.
  - assert (Hcalls :
      (if 0 <=? selectedIndex r
       then ({| query := query r; suggestions := suggestions r;
                showSuggestions := false; selectedIndex := selectedIndex r |},
             [Engine.submit])
       else ({| query := query r; suggestions := suggestions r;
                showSuggestions := false; selectedIndex := selectedIndex r |},
             [Engine.submit]))
      = ({| query := query r; suggestions := suggestions r;
            showSuggestions := false; selectedIndex := selectedIndex r |},
         [Engine.submit])) by (destruct (0 <=? selectedIndex r); reflexivity).
    rewrite Hcalls. simpl. repeat (split; [reflexivity|]). split.
    + intros sg Hpos Hlook.
      assert (at_index (suggestions r) (selectedIndex r) = Some sg)
        by (apply at_index_spec; auto).
      congruence.
    + auto.
Qed.

(** X10: typing wins over an earlier highlight. Handling an input event
    sends the typed text and asks for suggestions, and resets the
    highlight, so that Enter right after typing submits the typed text
    even when a suggestion was highlighted before; the same holds once the
    blur timer has fired. *)
Theorem typed_text_is_submitted (r : Refs) :
  snd (onInput searchBox r) = [Engine.updateText (query r); Engine.showSuggestions]
  /\ query (fst (onInput searchBox r)) = query r
  /\ snd (onSubmit searchBox (fst (onInput searchBox r))) = [Engine.submit]
  /\ query (fst (onSubmit searchBox (fst (onInput searchBox r)))) = query r
  /\ snd (onSubmit searchBox (onBlur r)) = [Engine.submit]
  /\ showSuggestions (onBlur r) = false.
Proof. repeat split. Qed.

(** X11: with no suggestions, the down key still moves the highlight from
    none to index 0, where there is nothing; however the arrow keys are
    pressed, the highlight stays at none or 0 and Enter submits the typed
    text. *)
Theorem arrows_without_suggestions (r : Refs) (directions : list Z) :
  suggestions r = [] ->
  selectedIndex r = -1 ->
  Forall (fun d => d = 1 \/ d = -1) directions ->
  selectedIndex (navigateSuggestion 1 r) = 0
  /\ (selectedIndex (SearchBoxKeys.navigateAll directions r) = -1
      \/ selectedIndex (SearchBoxKeys.navigateAll directions r) = 0)
  /\ onSubmit searchBox (SearchBoxKeys.navigateAll directions r)
     = ({| query := query r; suggestions := [];
           showSuggestions := false;
           selectedIndex :=
             selectedIndex (SearchBoxKeys.navigateAll directions r) |},
        [Engine.submit]).
Proof.
  intros Hs Hi Hd.
  assert (Hinv : forall ds r0,
            Forall (fun d => d = 1 \/ d = -1) ds ->
            suggestions r0 = [] -> query r0 = query r ->
            (selectedIndex r0 = -1 \/ selectedIndex r0 = 0) ->
            suggestions (SearchBoxKeys.navigateAll ds r0) = []
            /\ query (SearchBoxKeys.navigateAll ds r0) = query r
            /\ (selectedIndex (SearchBoxKeys.navigateAll ds r0) = -1
                \/ selectedIndex (SearchBoxKeys.navigateAll ds r0) = 0)).
  { induction ds as [|d ds IH]; intros r0 Hds Hs0 Hq0 Hi0; [auto|].
    inversion Hds as [|? ? Hd1 Hds']; subst.
    unfold SearchBoxKeys.navigateAll. simpl.
    apply IH; [assumption | exact Hs0 | exact Hq0 |].
    unfold navigateSuggestion. simpl. rewrite Hs0. simpl.
    destruct Hd1 as [-> | ->], Hi0 as [Hx | Hx]; rewrite Hx; simpl; auto. }
  split.
  - unfold navigateSuggestion. simpl. rewrite Hs, Hi. reflexivity.
  - destruct (Hinv directions r Hd Hs eq_refl (or_introl Hi)) as (Hs' & Hq' & Hi').
    split; [exact Hi'|].
    unfold onSubmit. rewrite Hs', Hq'.
    destruct Hi' as [-> | ->]; reflexivity.
Qed.

End SearchBoxFacts.

Lemma arrows_cycle_through_suggestions_witness :
  SearchBox.selectedIndex (SearchBox.navigateSuggestion 1 Samples.typing) = 2
  /\ SearchBox.navigateSuggestion (-1) (SearchBox.navigateSuggestion 1 Samples.typing)
     = Samples.typing.
Proof.
  destruct (arrows_cycle_through_suggestions Samples.typing
              ltac:(simpl; lia) ltac:(simpl; lia))
    as (_ & _ & Hnext & _ & _ & _ & Hback).
  split.
  - rewrite Hnext; [reflexivity | simpl; lia].
  - apply Hback. simpl. lia.
Defined.

Lemma arrows_without_suggestions_witness :
  snd (SearchBox.onSubmit (Samples.searchBoxOf tt)
         (SearchBoxKeys.navigateAll [1; 1; -1; 1] SearchBox.setup))
  = [Engine.submit].
Proof.
  destruct (arrows_without_suggestions
              {| UseSearchControllers.ctl_engine := tt;
                 UseSearchControllers.ctl_options :=
                   {| UseSearchControllers.numberOfSuggestions := 5;
                      UseSearchControllers.highlightOptions := None |} |}
              SearchBox.setup [1; 1; -1; 1] eq_refl eq_refl
              ltac:(repeat (constructor; [lia|]); constructor)) as (_ & _ & H).
  unfold Samples.searchBoxOf, UseSearchControllers.createSearchBox,
    UseSearchControllers.build. simpl default.
  now rewrite H.
Defined.

(** ** Result items and clicks *)

Section ResultItemFacts.
Import Engine.
Variable toLocaleDateString : Z -> string.

Lemma pow_10_12 : 10 ^ 12 = 1000000000000.
Proof. reflexivity. Qed.

Lemma pow_10_9 : 10 ^ 9 = 1000000000.
Proof. reflexivity. Qed.

(** X12: a date may come in seconds or in milliseconds only if it lies
    after 10^9 seconds (9 September 2001). For a positive number of
    seconds [d] up to 10^12, the value [d] and the same instant in
    milliseconds give the same time exactly when [d > 10^9], and two
    results carrying them then show the same date; a millisecond value of
    an earlier instant is taken for seconds and scaled by 1000 once
    more. *)
Theorem seconds_and_milliseconds_agree (d : Z) (r1 r2 : Result) :
  0 < d <= 10 ^ 12 ->
  (ResultItem.dateMillis (d * 1000) = ResultItem.dateMillis d <-> 10 ^ 9 < d)
  /\ (d <= 10 ^ 9 -> ResultItem.dateMillis (d * 1000) = d * 1000000)
  /\ (10 ^ 9 < d ->
        ResultItem.dateValue r1 = Some d ->
        ResultItem.dateValue r2 = Some (d * 1000) ->
        ResultItem.formattedDate toLocaleDateString r1
        = ResultItem.formattedDate toLocaleDateString r2).
Proof.
  rewrite pow_10_12, pow_10_9. intros Hd.
  assert (H1 : ResultItem.dateMillis d = d * 1000).
  { unfold ResultItem.dateMillis. rewrite pow_10_12.
    destruct (Z.ltb_spec 1000000000000 d); lia. }
  assert (H2 : ResultItem.dateMillis (d * 1000)
               = if 1000000000 <? d then d * 1000 else d * 1000000).
  { unfold ResultItem.dateMillis. rewrite pow_10_12.
    destruct (Z.ltb_spec 1000000000000 (d * 1000)), (Z.ltb_spec 1000000000 d); lia. }
  split; [|split].
  - rewrite H1, H2. destruct (Z.ltb_spec 1000000000 d); split; intros; lia.
  - intros Hle. rewrite H2. destruct (Z.ltb_spec 1000000000 d); lia.
  - intros Hgt Hv1 Hv2. unfold ResultItem.formattedDate. rewrite Hv1, Hv2.
    destruct (Z.eqb_spec d 0); [lia|].
    destruct (Z.eqb_spec (d * 1000) 0); [lia|].
    rewrite H1, H2. destruct (Z.ltb_spec 1000000000 d); [reflexivity | lia].
Qed.

(** X13: a result item shows nothing the result list did not ask for: two
    results that agree on the fields [createResultList] includes have the
    same file type, source, author and formatted date. *)
Theorem item_reads_only_requested_fields {SearchEngine : Type} (e : SearchEngine)
    (c : UseSearchControllers.Controller SearchEngine (list string))
    (r1 r2 : Result) :
  UseSearchControllers.createResultList (Some e) = Some c ->
  (forall k, k ∈ UseSearchControllers.ctl_options c -> raw r1 !! k = raw r2 !! k) ->
  ResultItem.fileType r1 = ResultItem.fileType r2
  /\ ResultItem.source r1 = ResultItem.source r2
  /\ ResultItem.author r1 = ResultItem.author r2
  /\ ResultItem.formattedDate toLocaleDateString r1
     = ResultItem.formattedDate toLocaleDateString r2.
Proof.
  intros [= <-] H. simpl in H.
  unfold ResultItem.fileType, ResultItem.source, ResultItem.author,
    ResultItem.formattedDate, ResultItem.stringField, ResultItem.dateValue.
  rewrite (H "filetype"), (H "source"), (H "author"), (H "date");
    try (apply list_elem_of_In; simpl; tauto).
  repeat split.
Qed.

End ResultItemFacts.

Section ClickSequences.
Import Engine.
Context {SearchEngine : Type}.
Variable e : SearchEngine.

(** X14: over any sequence of clicks on results, with an engine, the
    clicks on a card outside its title link are the ones logged, one
    [logDocumentOpen] each with the clicked result and one console line
    each, in click order, and they open nothing; the clicks on title links
    are the ones that open a document, and none of them is logged. *)
Theorem clicks_logged_or_opened
    (clicks : list (ResultItem.ClickTarget * Result)) :
  let '(calls, console, navigation) := ResultClicks.clickAll (Some e) clicks in
  calls
  = map (fun c => logDocumentOpen (snd c))
        (List.filter (fun c => ResultClicks.isCard (fst c)) clicks)
  /\ length console = length calls
  /\ navigation
     = map (fun c => ResultItem.open_new_tab (clickUri (snd c)))
           (List.filter (fun c => negb (ResultClicks.isCard (fst c))) clicks).
Proof.
  induction clicks as [|[t r] clicks IH]; simpl; [auto|].
  destruct (ResultClicks.clickAll (Some e) clicks) as [[calls console] navigation].
  destruct IH as (-> & Hlen & ->).
  destruct t; simpl; rewrite Hlen; auto.
Qed.

(** X15: custom events are never sent: whatever the event and whether or
    not there is an engine, [logCustomEvent] dispatches nothing; with an
    engine it writes one console line that starts with the event type and
    value, without one it writes nothing. *)
Theorem custom_events_are_only_printed (engine : option SearchEngine)
    (eventType eventValue : string) (metadata : list (string * string)) :
  fst (UseCoveoAnalytics.logCustomEvent engine eventType eventValue metadata) = []
  /\ (engine = None ->
        snd (UseCoveoAnalytics.logCustomEvent engine eventType eventValue metadata) = [])
  /\ (is_Some engine ->
        exists msg,
          snd (UseCoveoAnalytics.logCustomEvent engine eventType eventValue metadata)
          = [JS.console_log msg
               (("type", eventType) :: ("value", eventValue) :: metadata)]).
Proof.
  destruct engine; simpl.
  - split; [reflexivity|]. split; [discriminate|]. intros _. eexists. reflexivity.
  - split; [reflexivity|]. split; [reflexivity|]. intros [x Hx]. discriminate.
Qed.

End ClickSequences.

(** ** Sorting, facets and corrections *)

Section ViewFacts.
Import UseSearchControllers.
Context {SearchEngine : Type}.

Lemma sortCriteria_lookup (v : string) :
  SortDropdown.sortCriteria !! v
  = if decide (v = "relevance") then Some Engine.Relevance
    else if decide (v = "date-desc") then Some Engine.DateDescending
    else if decide (v = "date-asc") then Some Engine.DateAscending
    else None.
Proof.
  unfold SortDropdown.sortCriteria.
  rewrite !lookup_insert, lookup_singleton.
  repeat case_decide; congruence.
Qed.

(** X16: the select and the criteria object fit each other: the three
    option values are exactly the own keys of the object, different values
    have different criteria, and every criterion has a value; choosing an
    option calls [sortBy] exactly once with its criterion. A value of the
    ref that is not an option calls nothing, unless it names a member the
    object inherits from [Object.prototype]: then [sortBy] is called with
    that member. The ref is never written by the handler. *)
Theorem sort_options_match_criteria
    (sort : Controller SearchEngine Engine.SortCriterion) (r : SortDropdown.Refs) :
  (forall v, v ∈ SortDropdown.optionValues <-> is_Some (SortDropdown.sortCriteria !! v))
  /\ (forall v1 v2 c,
        SortDropdown.sortCriteria !! v1 = Some c ->
        SortDropdown.sortCriteria !! v2 = Some c -> v1 = v2)
  /\ (forall c, exists v,
        v ∈ SortDropdown.optionValues /\ SortDropdown.sortCriteria !! v = Some c)
  /\ (forall c, SortDropdown.sortCriteria !! SortDropdown.selectedSort r = Some c ->
        SortDropdown.onSortChange (Some sort) r
        = (r, [SortDropdown.sortBy (SortDropdown.criterion c)]))
  /\ (SortDropdown.selectedSort r ∉ SortDropdown.optionValues ->
        SortDropdown.selectedSort r ∈ SortDropdown.inheritedNames ->
        SortDropdown.onSortChange (Some sort) r
        = (r, [SortDropdown.sortBy
                 (SortDropdown.inherited (SortDropdown.selectedSort r))]))
  /\ (SortDropdown.selectedSort r ∉ SortDropdown.optionValues ->
        SortDropdown.selectedSort r ∉ SortDropdown.inheritedNames ->
        SortDropdown.onSortChange (Some sort) r = (r, [])).
Proof.
  assert (Hdom : forall v, v ∈ SortDropdown.optionValues
                           <-> is_Some (SortDropdown.sortCriteria !! v)).
  { intros v. rewrite sortCriteria_lookup. unfold SortDropdown.optionValues.
    rewrite !elem_of_cons, elem_of_nil.
    repeat case_decide; split; intros Hv;
      try (eexists; reflexivity); try tauto;
      destruct Hv as [x Hx]; discriminate. }
  assert (Hout : SortDropdown.selectedSort r ∉ SortDropdown.optionValues ->
                 SortDropdown.sortCriteria !! SortDropdown.selectedSort r = None).
  { intros Hn. apply eq_None_not_Some. intros Hs. now apply Hn, Hdom. }
  split; [exact Hdom|]. split; [|split; [|split; [|split]]].
  - intros v1 v2 c. rewrite !sortCriteria_lookup.
    repeat case_decide; congruence.
  - intros c.
    destruct c; [exists "relevance" | exists "date-desc" | exists "date-asc"];
      (split; [unfold SortDropdown.optionValues; rewrite !elem_of_cons; auto
              | rewrite sortCriteria_lookup; reflexivity]).
  - intros c Hc. unfold SortDropdown.onSortChange, SortDropdown.sortCriteria_at.
    now rewrite Hc.
  - intros Hn Hin. unfold SortDropdown.onSortChange, SortDropdown.sortCriteria_at.
    rewrite (Hout Hn). now rewrite bool_decide_eq_true_2.
  - intros Hn Hnin. unfold SortDropdown.onSortChange, SortDropdown.sortCriteria_at.
    rewrite (Hout Hn). now rewrite bool_decide_eq_false_2.
Qed.

(** X17: in the facet component the clear button is offered only when a
    value is selected, hence only when there are values; the show
    more/less button, whenever it is rendered, makes exactly one call,
    [showMoreValues] if more can be shown and [showLessValues] otherwise;
    and a state update never expands or collapses the facet, it commutes
    with a click on the header, two of which cancel out. *)
Theorem facet_buttons_and_header
    (facet : Controller SearchEngine FacetOptions) (r : Facet.Refs)
    (state : Facet.FacetState) :
  (Facet.hasActiveValues r = true -> Facet.hasValues r = true)
  /\ (FacetTemplate.clearButtonShown r = true ->
        exists v, v ∈ Facet.values r /\ Engine.state v = Engine.selected)
  /\ (FacetTemplate.showMoreButtonShown r = true ->
        Facet.toggleShowMore (Some facet) r
        = (r, [if Facet.canShowMore r
               then Engine.showMoreValues (field (ctl_options facet))
               else Engine.showLessValues (field (ctl_options facet))]))
  /\ Facet.isExpanded (Facet.onStateChange state r) = Facet.isExpanded r
  /\ Facet.onStateChange state (FacetTemplate.toggleExpanded r)
     = FacetTemplate.toggleExpanded (Facet.onStateChange state r)
  /\ FacetTemplate.toggleExpanded (FacetTemplate.toggleExpanded r) = r.
Proof.
  assert (Hsel : Facet.hasActiveValues r = true ->
                 exists v, v ∈ Facet.values r /\ Engine.state v = Engine.selected).
  { unfold Facet.hasActiveValues. intros H.
    apply existsb_exists in H as (v & Hin & Hv).
    exists v. split; [now apply list_elem_of_In|].
    now apply bool_decide_eq_true in Hv. }
  split; [|split; [|split; [|split; [|split]]]].
  - intros H. destruct (Hsel H) as (v & Hin & _).
    unfold Facet.hasValues. destruct (Facet.values r); [inversion Hin|].
    reflexivity.
  - unfold FacetTemplate.clearButtonShown. intros H.
    apply andb_true_iff in H as [_ H]. auto.
  - unfold FacetTemplate.showMoreButtonShown, Facet.toggleShowMore. intros H.
    apply andb_true_iff in H as [_ H].
    destruct (Facet.canShowMore r); [reflexivity|].
    simpl in H. now rewrite H.
  - reflexivity.
  - reflexivity.
  - destruct r as [v x m l]. unfold FacetTemplate.toggleExpanded. simpl.
    now rewrite negb_involutive.
Qed.

(** X18: after a state update the correction component offers nothing when
    the controller reports no correction, the correction button when it
    reports one that was not applied automatically, and the
    search-original button when it was; a click on the correction button
    calls [applyCorrection()] once, a click on the search-original button
    calls nothing, and neither writes a ref. *)
Theorem correction_buttons (didYouMean : Controller SearchEngine unit)
    (state : Engine.DidYouMeanState) (r0 : DidYouMean.Refs) :
  let r := DidYouMean.onStateChange state r0 in
  (DidYouMeanTemplate.rendered r = None <-> Engine.hasQueryCorrection state = false)
  /\ (DidYouMeanTemplate.rendered r = Some DidYouMeanTemplate.ApplyCorrectionButton
      <-> Engine.hasQueryCorrection state = true
          /\ Engine.wasAutomaticallyCorrected state = false)
  /\ (DidYouMeanTemplate.rendered r = Some DidYouMeanTemplate.SearchOriginalButton
      <-> Engine.hasQueryCorrection state = true
          /\ Engine.wasAutomaticallyCorrected state = true)
  /\ DidYouMeanTemplate.click (Some didYouMean)
       DidYouMeanTemplate.ApplyCorrectionButton r = (r, [Engine.applyCorrection])
  /\ DidYouMeanTemplate.click (Some didYouMean)
       DidYouMeanTemplate.SearchOriginalButton r = (r, []).
Proof.
  unfold DidYouMeanTemplate.rendered. simpl.
  destruct (Engine.hasQueryCorrection state),
    (Engine.wasAutomaticallyCorrected state);
    repeat split; intros; try discriminate; try tauto;
    match goal with H : _ /\ _ |- _ => destruct H; discriminate end.
Qed.

End ViewFacts.

Section ResultListFacts.

(** X19: the result list shows the no-results message only after a search:
    before the first state update it renders an empty list, and after an
    update it shows the skeletons exactly while the controller is loading,
    the message exactly when it is not loading, has no results and reports
    results or a response id, and otherwise the results of the controller
    state, in order. *)
Theorem no_results_only_after_search (state : ResultList.ResultListState)
    (r0 : ResultList.Refs) :
  let r := ResultList.onStateChange state r0 in
  ResultListTemplate.view ResultList.setup = ResultListTemplate.Items []
  /\ (ResultListTemplate.view r = ResultListTemplate.Skeletons
      <-> ResultList.state_isLoading state = true)
  /\ (ResultListTemplate.view r = ResultListTemplate.NoResults
      <-> ResultList.state_isLoading state = false
          /\ ResultList.state_results state = []
          /\ (ResultList.hasResults state = true
              \/ ResultList.searchResponseId state <> EmptyString))
  /\ (forall items, ResultListTemplate.view r = ResultListTemplate.Items items ->
        items = ResultList.state_results state).
Proof.
  unfold ResultListTemplate.view. simpl.
  destruct (ResultList.state_isLoading state).
  { repeat split; intros; try discriminate; try tauto.
    - destruct H as [? _]. discriminate. }
  destruct (ResultList.state_results state) as [|x xs]; simpl.
  - destruct (ResultList.hasResults state); simpl.
    + repeat split; intros; try discriminate; auto.
    + destruct (String.eqb_spec (ResultList.searchResponseId state) EmptyString)
        as [Heq | Hne]; simpl.
      * repeat split; intros; try discriminate; try congruence.
        destruct H as (_ & _ & [H | H]); [discriminate | contradiction].
      * repeat split; intros; try discriminate; auto.
  - repeat split; intros; try discriminate; try congruence.
    destruct H as (_ & H & _). discriminate.
Qed.

End ResultListFacts.

Lemma seconds_and_milliseconds_agree_witness :
  ResultItem.formattedDate (fun ms => if ms =? 1700000000000 then "Nov 14, 2023" else "?")
    (Samples.resultDated 1700000000)
  = ResultItem.formattedDate (fun ms => if ms =? 1700000000000 then "Nov 14, 2023" else "?")
      (Samples.resultDated 1700000000000).
Proof.
  destruct (seconds_and_milliseconds_agree
              (fun ms => if ms =? 1700000000000 then "Nov 14, 2023" else "?")
              1700000000 (Samples.resultDated 1700000000)
              (Samples.resultDated 1700000000000)
              ltac:(rewrite pow_10_12; lia)) as (_ & _ & H).
  apply H; [rewrite pow_10_9; lia | reflexivity | reflexivity].
Defined.

Lemma item_reads_only_requested_fields_witness :
  ResultItem.formattedDate (fun _ => "a date") Examples.result1
  = ResultItem.formattedDate (fun _ => "a date")
      {| Engine.uniqueId := "doc-9";
         Engine.title := "Another title";
         Engine.excerpt := EmptyString;
         Engine.clickUri := "https://example.org/other";
         Engine.rank := 4%nat;
         Engine.raw := {[ "date" := Engine.SNumber 1700000000 ]} |}.
Proof.
  refine (proj2 (proj2 (proj2
            (item_reads_only_requested_fields (fun _ => "a date") tt _
               Examples.result1 _ eq_refl _)))).
  intros k _. simpl.
  destruct (decide (k = "date")) as [-> | Hne]; [reflexivity|].
  rewrite !lookup_singleton_ne by congruence. reflexivity.
Defined.
